(** * starfish: tile metadata registry and intensity-table persistence

    A shallow embedding of [starfish/imagestack/tileset/_tile_metadata.py]
    (classes [TileMetadataKey] and [TileSetMetadata]) and of the save/load
    round trip exercised by
    [starfish/test/intensity_table/test_intensity_table_serialization.py].

    Python integers are unbounded, so they are [Z]; [^] on them is the
    two's-complement exclusive or, which is [Z.lxor].  A raised exception is
    the [Raise] branch of [PyResult]. *)

From stdpp Require Import gmap strings list fin_maps pretty.
From Stdlib Require Import ZArith Lia Ascii.

Local Open Scope Z_scope.

(** ** Python values and exceptions *)

(** Modelled from the spec: the enumeration [starfish.types.Indices], whose
    declaration is outside the shown sources.  The spec names the three
    dimension identifiers that key a tile's coordinate-index mapping:
    ROUND, CH and Z. *)
Module Indices.

Inductive t : Set := ROUND | CH | Z.

#[global] Instance eq_dec : EqDecision t.
Proof. solve_decision. Defined.

Definition to_nat (i : t) : nat :=
  match i with ROUND => 0%nat | CH => 1%nat | Z => 2%nat end.

Definition of_nat (n : nat) : t :=
  match n with O => ROUND | S O => CH | _ => Z end.

#[global] Instance countable : Countable t.
Proof. apply (inj_countable' to_nat of_nat). by intros []. Defined.

End Indices.

(** The identity of a mutable object (a metadata [dict] owned by the tile
    set).  Two references are the same object exactly when they are equal. *)
Definition PyRef : Set := positive.

Module TileMetadataKey.

(** An instance holds the three private attributes assigned by [__init__].
    The module never mutates an instance and never compares two with [is],
    so an instance is modelled by its fields. *)
Record t : Set := mk { _round : Z; _ch : Z; _z : Z }.

Definition __init__ (round ch z : Z) : t :=
  {| _round := round; _ch := ch; _z := z |}.

Definition round (self : t) : Z := _round self.

Definition ch (self : t) : Z := _ch self.

Definition z (self : t) : Z := _z self.

#[global] Instance eq_dec : EqDecision t.
Proof. solve_decision. Defined.

End TileMetadataKey.

(** The objects that can reach [__eq__] and [__getitem__]. *)
#[warnings="-register-all"] Inductive PyObj : Set :=
| PyNone
| PyInt (n : Z)
| PyStr (s : string)
| PyTuple (items : list PyObj)
| PyList (items : list PyObj)
| PyIndices (i : Indices.t)
| PyKey (k : TileMetadataKey.t).

Inductive PyExc : Set :=
| KeyError (key : PyObj)
| TypeError (msg : string).

Inductive PyResult (A : Type) : Type :=
| Ok (a : A)
| Raise (e : PyExc).
Arguments Ok {A} a.
Arguments Raise {A} e.

(** Sequencing: an exception raised by a statement skips the rest of the
    block.  The instance gives [x ← m; k] its meaning on [PyResult]. *)
#[global] Instance PyResult_bind : MBind PyResult :=
  fun A B (f : A -> PyResult B) (m : PyResult A) =>
    match m with
    | Ok a => f a
    | Raise e => Raise e
    end.

(** ** class TileMetadataKey: equality and hash *)

(** [isinstance(other, TileMetadataKey)] *)
Definition isinstance_TileMetadataKey (other : PyObj) : bool :=
  match other with
  | PyKey _ => true
  | _ => false
  end.

(** [TileMetadataKey.__eq__]: the guard on the class of [other], then the
    conjunction of the three field comparisons. *)
Definition __eq__ (self : TileMetadataKey.t) (other : PyObj) : bool :=
  if negb (isinstance_TileMetadataKey other) then false
  else
    match other with
    | PyKey o =>
        (TileMetadataKey._round self =? TileMetadataKey.round o)
        && (TileMetadataKey._ch self =? TileMetadataKey.ch o)
        && (TileMetadataKey._z self =? TileMetadataKey.z o)
    | _ => false
    end.

(** [TileMetadataKey.__hash__]: [self._round ^ self._ch ^ self._z]. *)
Definition __hash__ (self : TileMetadataKey.t) : Z :=
  Z.lxor (Z.lxor (TileMetadataKey._round self) (TileMetadataKey._ch self))
         (TileMetadataKey._z self).

(** [TileMetadataKey.__repr__]: the f-string
    [f"round: {self._round} ch: {self._ch} z: {self._z}"].  A replacement
    field formats an int as [str] does, in decimal with a leading minus for
    a negative one, which is [pretty] on [Z]. *)
Definition __repr__ (self : TileMetadataKey.t) : string :=
  "round: " +:+ pretty (TileMetadataKey._round self)
  +:+ " ch: " +:+ pretty (TileMetadataKey._ch self)
  +:+ " z: " +:+ pretty (TileMetadataKey._z self).

(** ** The interpreter's part in a dict subscript

    [d[key]] first asks the interpreter for [hash(key)].  Lists are
    unhashable, and so is a tuple with an unhashable item: for those the
    subscript raises [TypeError] before any entry is compared.  Among the
    objects modelled the item at fault is always a list, which fixes the
    message. *)
Fixpoint hashable (o : PyObj) : bool :=
  match o with
  | PyList _ => false
  | PyTuple items => forallb hashable items
  | _ => true
  end.

Definition unhashable_list : PyExc := TypeError "unhashable type: 'list'".

(** What the interpreter computes and the repository does not decide: the
    hash of the built-in objects (salted per process for [str]), and the
    reduction of the integer returned by a [__hash__] method to the width of
    a hash slot.  Every property below holds for each choice of them. *)
Class Interpreter : Type := {
  builtin_hash : PyObj -> Z;
  as_hash_t : Z -> Z
}.

(** A dict keeps its entries in insertion order, each with the hash its key
    had when it was stored.  The keys stored by this module are all
    [TileMetadataKey] instances. *)
Record DictEntry : Set := entry { me_hash : Z; me_key : TileMetadataKey.t; me_value : PyRef }.

Definition PyDict : Set := list DictEntry.

Section Dict.
Context `{!Interpreter}.

Definition py_hash (o : PyObj) : PyResult Z :=
  match o with
  | PyKey k => Ok (as_hash_t (__hash__ k))
  | _ =>
      if hashable o then Ok (builtin_hash o)
      else Raise unhashable_list
  end.

(** An entry is the one looked for when the stored hash is the hash of the
    probe and the stored key's [__eq__] accepts the probe.  (The interpreter
    also accepts an entry whose key is the probe object itself; such an
    entry has the probe's hash and [__eq__] accepts it too.) *)
Definition entry_matches (h : Z) (key : PyObj) (e : DictEntry) : bool :=
  (me_hash e =? h) && __eq__ (me_key e) key.

(** [d[key]] *)
Definition dict_getitem (d : PyDict) (key : PyObj) : PyResult PyRef :=
  h ← py_hash key;
  match List.find (entry_matches h key) d with
  | Some e => Ok (me_value e)
  | None => Raise (KeyError key)
  end.

(** The slot update of [d[key] = value]: the value of the matching entry is
    replaced where there is one (its key object and its position stay),
    otherwise a new entry is appended. *)
Fixpoint dict_store (d : PyDict) (h : Z) (key : TileMetadataKey.t) (value : PyRef) : PyDict :=
  match d with
  | [] => [entry h key value]
  | e :: d' =>
      if entry_matches h (PyKey key) e
      then entry (me_hash e) (me_key e) value :: d'
      else e :: dict_store d' h key value
  end.

(** [d[key] = value] for a [TileMetadataKey] instance, whose hash cannot
    raise. *)
Definition dict_setitem (d : PyDict) (key : TileMetadataKey.t) (value : PyRef) : PyDict :=
  dict_store d (as_hash_t (__hash__ key)) key value.

(** [d.keys()], in iteration order, and [len(d)]. *)
Definition dict_keys (d : PyDict) : list TileMetadataKey.t := map me_key d.

Definition dict_len (d : PyDict) : nat := length d.

End Dict.

(** ** The tile set read by the registry *)

Module Tile.

(** A tile of [slicedimage]: its coordinate-index mapping and a reference to
    its extras dict. *)
Record t : Type := mk { indices : gmap Indices.t Z; extras : PyRef }.

End Tile.

Module TileSet.

(** A [slicedimage.TileSet]: what [tiles()] iterates over, in order, and a
    reference to the extras dict of the collection. *)
Record t : Type := mk { tiles : list Tile.t; extras : PyRef }.

End TileSet.

(** [m[i]] on a coordinate-index mapping. *)
Definition indices_getitem (m : gmap Indices.t Z) (i : Indices.t) : PyResult Z :=
  match m !! i with
  | Some v => Ok v
  | None => Raise (KeyError (PyIndices i))
  end.

(** [m.get(i, d)] *)
Definition indices_get (m : gmap Indices.t Z) (i : Indices.t) (d : Z) : Z :=
  default d (m !! i).

(** ** class TileSetMetadata *)

Module TileSetMetadata.

Record t : Type := mk { tile_extras : PyDict; _extras : PyRef }.

Section Methods.
Context `{!Interpreter}.

(** The body of the [for tile in tileset.tiles()] loop, on the dict built
    so far. *)
Definition loop_body (tile_extras : PyDict) (tile : Tile.t) : PyResult PyDict :=
  round_ ← indices_getitem (Tile.indices tile) Indices.ROUND;
  ch ← indices_getitem (Tile.indices tile) Indices.CH;
  let z := indices_get (Tile.indices tile) Indices.Z 0 in
  Ok (dict_setitem tile_extras (TileMetadataKey.__init__ round_ ch z) (Tile.extras tile)).

Fixpoint for_tiles (tiles : list Tile.t) (tile_extras : PyDict) : PyResult PyDict :=
  match tiles with
  | [] => Ok tile_extras
  | tile :: rest =>
      tile_extras' ← loop_body tile_extras tile;
      for_tiles rest tile_extras'
  end.

(** [TileSetMetadata.__init__]: the loop over the tiles from an empty dict,
    then the two attribute assignments. *)
Definition __init__ (tileset : TileSet.t) : PyResult t :=
  tile_extras ← for_tiles (TileSet.tiles tileset) [];
  Ok {| tile_extras := tile_extras; _extras := TileSet.extras tileset |}.

Definition __getitem__ (self : t) (tilekey : PyObj) : PyResult PyRef :=
  dict_getitem (tile_extras self) tilekey.

Definition keys (self : t) : list TileMetadataKey.t :=
  dict_keys (tile_extras self).

Definition extras (self : t) : PyRef := _extras self.

End Methods.

End TileSetMetadata.

(** ** Saving and loading an intensity table *)

Module IntensityTable.

Inductive DType : Set := Float32 | Float64.

#[global] Instance DType_eq_dec : EqDecision DType.
Proof. solve_decision. Defined.

(** Modelled from the spec: the labeled dataset of [IntensityTable], whose
    class is outside the shown sources.  The spec gives it a floating-point
    array over named axes, a set of named coordinate label arrays, each
    attached to one or more axes, and attributes.  A floating-point value is
    held as its bit pattern, which is what storing and copying move; the
    array is flat, in row-major order. *)
Record t : Type := mk {
  dims : list string;
  shape : list nat;
  dtype : DType;
  values : list Z;
  coords : gmap string (list string * list Z);
  attrs : gmap string string
}.

(** Modelled from the spec: the self-describing container written to a
    path, holding the named axes with their lengths, the array payload, the
    coordinate arrays and the attributes. *)
Record Container : Type := container {
  c_axes : list (string * nat);
  c_dtype : DType;
  c_payload : list Z;
  c_coords : list (string * (list string * list Z));
  c_attrs : list (string * string)
}.

(** What a path may hold: a container, or bytes that are none. *)
Inductive File : Type :=
| NetCDF (c : Container)
| Other (raw : list Z).

Record FileSystem : Type := fs {
  files : gmap string File;
  writable : string -> bool
}.

(** Modelled from the spec: the error taxonomy of [save] and [load]. *)
Inductive Error : Set := IOFailure | NotFound | CorruptContainer.

Definition cells (sizes : list nat) : nat := foldr Nat.mul 1%nat sizes.

Fixpoint axis_size (axes : list (string * nat)) (name : string) : option nat :=
  match axes with
  | [] => None
  | (n, size) :: rest => if decide (n = name) then Some size else axis_size rest name
  end.

(** A coordinate array fits the axes when each axis it names exists and it
    has one label per cell of those axes. *)
Definition coord_fits (axes : list (string * nat)) (c : string * (list string * list Z)) : bool :=
  match mapM (axis_size axes) (fst (snd c)) with
  | Some sizes => bool_decide (length (snd (snd c)) = cells sizes)
  | None => false
  end.

(** The invariant the spec gives the dataset: one name per axis, one value
    per cell, and every coordinate array consistent with the axes it is
    attached to. *)
Definition well_formed (d : t) : bool :=
  bool_decide (length (dims d) = length (shape d))
  && bool_decide (length (values d) = cells (shape d))
  && forallb (coord_fits (zip (dims d) (shape d))) (map_to_list (coords d)).

Definition to_container (d : t) : Container :=
  {| c_axes := zip (dims d) (shape d);
     c_dtype := dtype d;
     c_payload := values d;
     c_coords := map_to_list (coords d);
     c_attrs := map_to_list (attrs d) |}.

Definition container_valid (c : Container) : bool :=
  bool_decide (length (c_payload c) = cells (c_axes c).*2)
  && forallb (coord_fits (c_axes c)) (c_coords c).

Definition of_container (c : Container) : t :=
  {| dims := (c_axes c).*1;
     shape := (c_axes c).*2;
     dtype := c_dtype c;
     values := c_payload c;
     coords := list_to_map (c_coords c);
     attrs := list_to_map (c_attrs c) |}.

(** Modelled from the spec: [save(dataset, path)] writes the array, the
    coordinate arrays, the axis names and the attributes to one file at the
    path, replacing what was there, and fails with an I/O error on a path
    that cannot be written. *)
Definition save (d : t) (path : string) (disk : FileSystem) : Error + FileSystem :=
  if writable disk path
  then inr {| files := <[path := NetCDF (to_container d)]> (files disk);
              writable := writable disk |}
  else inl IOFailure.

(** Modelled from the spec: [load(path)] rebuilds the dataset from the file,
    and fails when the path is missing or when what it holds is not a
    well-formed container. *)
Definition load (path : string) (disk : FileSystem) : Error + t :=
  match files disk !! path with
  | None => inl NotFound
  | Some (Other _) => inl CorruptContainer
  | Some (NetCDF c) =>
      if container_valid c then inr (of_container c) else inl CorruptContainer
  end.

(** Modelled from the spec: the equivalence of two datasets, which compares
    shape and dtype, the value at every index, the coordinate arrays with
    their names, axes and values, and the attributes.  Values are compared
    by bit pattern, the finest comparison of two floating-point arrays. *)
Definition equals (a b : t) : bool :=
  bool_decide (dims a = dims b)
  && bool_decide (shape a = shape b)
  && bool_decide (dtype a = dtype b)
  && bool_decide (values a = values b)
  && bool_decide (coords a = coords b)
  && bool_decide (attrs a = attrs b).

End IntensityTable.

(** ** Notions used to state the properties *)

(** The contents of the mutable dicts, by reference. *)
Definition Heap : Type := gmap PyRef (gmap string PyObj).

(** The key the loop body builds for a tile: its first three statements and
    the constructor call. *)
Definition tile_key (tile : Tile.t) : PyResult TileMetadataKey.t :=
  round_ ← indices_getitem (Tile.indices tile) Indices.ROUND;
  ch ← indices_getitem (Tile.indices tile) Indices.CH;
  let z := indices_get (Tile.indices tile) Indices.Z 0 in
  Ok (TileMetadataKey.__init__ round_ ch z).

(** The value a dict holds for a key, read off its entries by the fields of
    the stored keys alone. *)
Definition dict_lookup (d : PyDict) (k : TileMetadataKey.t) : option PyRef :=
  me_value <$> List.find (fun e => bool_decide (me_key e = k)) d.

(** Every entry stores the hash of its key: what holds of a dict filled by
    subscript assignment alone. *)
Definition dict_wf `{!Interpreter} (d : PyDict) : Prop :=
  Forall (fun e => me_hash e = as_hash_t (__hash__ (me_key e))) d.

(** The keys of a dict after subscript assignments under [ks], in that
    order, to a dict whose keys were [seen]: a key not seen before goes to
    the end, a key seen before leaves the order as it is. *)
Definition add_keys (seen ks : list TileMetadataKey.t) : list TileMetadataKey.t :=
  foldl (fun acc k => if decide (k ∈ acc) then acc else acc ++ [k]) seen ks.

(** Whether a string holds a space. *)
Fixpoint has_space (s : string) : bool :=
  match s with
  | EmptyString => false
  | String c rest => bool_decide (c = " "%char) || has_space rest
  end.

(** The extras of the last tile, in iteration order, that yields key [k]. *)
Fixpoint last_extras (k : TileMetadataKey.t) (tiles : list Tile.t) : option PyRef :=
  match tiles with
  | [] => None
  | tile :: rest =>
      match last_extras k rest with
      | Some v => Some v
      | None =>
          match tile_key tile with
          | Ok k' => if decide (k' = k) then Some (Tile.extras tile) else None
          | Raise _ => None
          end
      end
  end.

(** ** A sample interpreter and sample data for the worked instances *)

(** The hash of an int on a 64-bit CPython, and the reduction applied to
    the result of a [__hash__] method. *)
Definition cpython_long_hash (n : Z) : Z :=
  let h := Z.sgn n * (Z.abs n mod (2 ^ 61 - 1)) in
  if h =? -1 then -2 else h.

Definition cpython_as_hash_t (n : Z) : Z :=
  let h := if (- 2 ^ 63 <=? n) && (n <? 2 ^ 63) then n else cpython_long_hash n in
  if h =? -1 then -2 else h.

(** Ints hash as on CPython; the sample sends every other built-in object
    to one bucket, the worst case for a lookup. *)
Definition sample_interpreter : Interpreter :=
  {| builtin_hash := fun o => match o with PyInt n => cpython_long_hash n | _ => 1 end;
     as_hash_t := cpython_as_hash_t |}.

Definition sample_tile (r c : Z) (z : option Z) (extras : PyRef) : Tile.t :=
  {| Tile.indices :=
       match z with
       | Some z => {[ Indices.ROUND := r; Indices.CH := c; Indices.Z := z ]}
       | None => {[ Indices.ROUND := r; Indices.CH := c ]}
       end;
     Tile.extras := extras |}.

(** Three tiles; the second omits z, and the third repeats the key of the
    first. *)
Definition sample_tileset : TileSet.t :=
  {| TileSet.tiles :=
       [sample_tile 1 0 (Some 0) 11%positive; sample_tile 0 1 None 12%positive;
        sample_tile 1 0 (Some 0) 13%positive];
     TileSet.extras := 10%positive |}.

(** Two tiles with distinct keys. *)
Definition sample_tileset_distinct : TileSet.t :=
  {| TileSet.tiles := [sample_tile 1 0 (Some 0) 11%positive; sample_tile 0 1 None 12%positive];
     TileSet.extras := 10%positive |}.

(** A tile set whose second tile has no channel index. *)
Definition sample_tileset_bad : TileSet.t :=
  {| TileSet.tiles :=
       [sample_tile 1 0 (Some 0) 11%positive;
        {| Tile.indices := {[ Indices.ROUND := 0 ]}; Tile.extras := 12%positive |}];
     TileSet.extras := 10%positive |}.

(** The registry the constructor returns for [sample_tileset].  The two
    keys have the same hash, 1. *)
Definition sample_registry : TileSetMetadata.t :=
  {| TileSetMetadata.tile_extras :=
       [entry 1 (TileMetadataKey.mk 1 0 0) 13%positive;
        entry 1 (TileMetadataKey.mk 0 1 0) 12%positive];
     TileSetMetadata._extras := 10%positive |}.

(** The registry the constructor returns for [sample_tileset_distinct]. *)
Definition sample_registry_distinct : TileSetMetadata.t :=
  {| TileSetMetadata.tile_extras :=
       [entry 1 (TileMetadataKey.mk 1 0 0) 11%positive;
        entry 1 (TileMetadataKey.mk 0 1 0) 12%positive];
     TileSetMetadata._extras := 10%positive |}.

(** [sample_tileset_distinct] with its tiles in the other order, and with
    one more tile at the end. *)
Definition sample_tileset_swapped : TileSet.t :=
  {| TileSet.tiles := [sample_tile 0 1 None 12%positive; sample_tile 1 0 (Some 0) 11%positive];
     TileSet.extras := 10%positive |}.

Definition sample_tileset_extended : TileSet.t :=
  {| TileSet.tiles :=
       [sample_tile 1 0 (Some 0) 11%positive; sample_tile 0 1 None 12%positive;
        sample_tile 2 2 (Some 1) 14%positive];
     TileSet.extras := 10%positive |}.

(** A tile without z and a tile with z = 0 at the same round and channel. *)
Definition sample_tileset_z : TileSet.t :=
  {| TileSet.tiles := [sample_tile 0 1 None 12%positive; sample_tile 0 1 (Some 0) 15%positive];
     TileSet.extras := 10%positive |}.

(** A tile set whose second tile has no index at all. *)
Definition sample_tileset_bare : TileSet.t :=
  {| TileSet.tiles :=
       [sample_tile 1 0 (Some 0) 11%positive;
        {| Tile.indices := ∅; Tile.extras := 12%positive |};
        sample_tile 0 1 None 13%positive];
     TileSet.extras := 10%positive |}.

(** The dataset of the serialization test: shape (1, 5, 2, 2, 5), float32,
    every value zero. *)
Definition zero_table : IntensityTable.t :=
  {| IntensityTable.dims := ["r"; "c"; "z"; "y"; "x"]%string;
     IntensityTable.shape := [1; 5; 2; 2; 5]%nat;
     IntensityTable.dtype := IntensityTable.Float32;
     IntensityTable.values := replicate 100 0;
     IntensityTable.coords := {[ "c"%string := (["c"%string], [0; 1; 2; 3; 4]) ]};
     IntensityTable.attrs := ∅ |}.

Definition sample_disk : IntensityTable.FileSystem :=
  {| IntensityTable.files := ∅; IntensityTable.writable := fun _ => true |}.

(** * Properties *)

Example sample_registry_built :
  @TileSetMetadata.__init__ sample_interpreter sample_tileset = Ok sample_registry.
Proof. vm_compute. reflexivity. Qed.

Example sample_bad_raises :
  @TileSetMetadata.__init__ sample_interpreter sample_tileset_bad
  = Raise (KeyError (PyIndices Indices.CH)).
Proof. vm_compute. reflexivity. Qed.

(** ** Equality and hash of keys *)

Lemma eq_key_spec (k o : TileMetadataKey.t) :
  __eq__ k (PyKey o) = bool_decide (k = o).
Proof.
  destruct k as [r c z], o as [r' c' z']; cbn.
  case_bool_decide as Hko.
  - injection Hko as -> -> ->. by rewrite !Z.eqb_refl.
  - destruct (Z.eqb_spec r r'), (Z.eqb_spec c c'), (Z.eqb_spec z z');
      cbn; congruence.
Qed.

Lemma eq_non_key (k : TileMetadataKey.t) (other : PyObj) :
  isinstance_TileMetadataKey other = false -> __eq__ k other = false.
Proof. intros Hother. unfold __eq__. by rewrite Hother. Qed.

Lemma hash_xor (r c z : Z) :
  __hash__ (TileMetadataKey.__init__ r c z) = Z.lxor (Z.lxor r c) z.
Proof. reflexivity. Qed.

Lemma lxor3_perm (a b c a' b' c' : Z) :
  [a; b; c] ≡ₚ [a'; b'; c'] ->
  Z.lxor (Z.lxor a' b') c' = Z.lxor (Z.lxor a b) c.
Proof.
  intros Hp.
  assert (Hfold : foldr Z.lxor 0 [a; b; c] = foldr Z.lxor 0 [a'; b'; c']).
  { apply (foldr_permutation (=) Z.lxor 0); [|done].
    intros j1 a1 j2 a2 acc _ _ _.
    by rewrite <- !Z.lxor_assoc, (Z.lxor_comm a1 a2). }
  cbn in Hfold. rewrite !Z.lxor_0_r in Hfold.
  by rewrite !Z.lxor_assoc.
Qed.

(** ** The dict of the registry *)

Section DictFacts.
Context `{!Interpreter}.

Lemma entry_matches_key (k : TileMetadataKey.t) (e : DictEntry) :
  me_hash e = as_hash_t (__hash__ (me_key e)) ->
  entry_matches (as_hash_t (__hash__ k)) (PyKey k) e = bool_decide (me_key e = k).
Proof.
  intros He. unfold entry_matches. rewrite eq_key_spec.
  case_bool_decide as Hk.
  - rewrite He, Hk, Z.eqb_refl. done.
  - apply andb_false_r.
Qed.

Lemma find_key (d : PyDict) (k : TileMetadataKey.t) :
  dict_wf d ->
  List.find (entry_matches (as_hash_t (__hash__ k)) (PyKey k)) d
  = List.find (fun e => bool_decide (me_key e = k)) d.
Proof.
  induction 1 as [|e d He _ IH]; [done|].
  cbn. rewrite (entry_matches_key k e He), IH. done.
Qed.

Lemma getitem_key (d : PyDict) (k : TileMetadataKey.t) :
  dict_wf d ->
  dict_getitem d (PyKey k)
  = match dict_lookup d k with
    | Some v => Ok v
    | None => Raise (KeyError (PyKey k))
    end.
Proof.
  intros Hwf. unfold dict_getitem, dict_lookup. cbn.
  rewrite (find_key d k Hwf).
  by destruct (List.find _ d).
Qed.

Lemma find_non_key (d : PyDict) (h : Z) (o : PyObj) :
  isinstance_TileMetadataKey o = false ->
  List.find (entry_matches h o) d = None.
Proof.
  intros Ho. induction d as [|e d IH]; [done|].
  cbn. unfold entry_matches at 1.
  by rewrite (eq_non_key _ _ Ho), andb_false_r.
Qed.

Lemma getitem_non_key (d : PyDict) (o : PyObj) :
  isinstance_TileMetadataKey o = false ->
  hashable o = true ->
  dict_getitem d o = Raise (KeyError o).
Proof.
  intros Ho Hh. unfold dict_getitem.
  assert (Hhash : py_hash o = Ok (builtin_hash o)).
  { unfold py_hash. rewrite Hh. by destruct o. }
  rewrite Hhash. cbn. by rewrite (find_non_key d _ o Ho).
Qed.

Lemma getitem_unhashable (d : PyDict) (o : PyObj) :
  hashable o = false ->
  dict_getitem d o = Raise unhashable_list.
Proof.
  intros Hh. unfold dict_getitem.
  assert (Hhash : py_hash o = Raise unhashable_list).
  { unfold py_hash. rewrite Hh. by destruct o. }
  by rewrite Hhash.
Qed.

Lemma setitem_wf (d : PyDict) (k : TileMetadataKey.t) (v : PyRef) :
  dict_wf d -> dict_wf (dict_setitem d k v).
Proof.
  unfold dict_setitem.
  induction 1 as [|e d He Hd IH]; cbn.
  - by repeat constructor.
  - destruct (entry_matches _ _ e); constructor; done.
Qed.

Lemma lookup_setitem (d : PyDict) (k k' : TileMetadataKey.t) (v : PyRef) :
  dict_wf d ->
  dict_lookup (dict_setitem d k v) k'
  = if decide (k' = k) then Some v else dict_lookup d k'.
Proof.
  unfold dict_setitem, dict_lookup.
  induction 1 as [|e d He Hd IH]; cbn.
  - case_bool_decide; case_decide; done || congruence.
  - rewrite (entry_matches_key k e He).
    case_bool_decide as Hek; cbn.
    + case_bool_decide as Hek'; case_decide; cbn; try done; congruence.
    + case_bool_decide as Hek'; cbn.
      * case_decide; [congruence|done].
      * apply IH.
Qed.

Lemma keys_setitem (d : PyDict) (k : TileMetadataKey.t) (v : PyRef) :
  dict_wf d ->
  dict_keys (dict_setitem d k v)
  = if decide (k ∈ dict_keys d) then dict_keys d else dict_keys d ++ [k].
Proof.
  unfold dict_setitem, dict_keys.
  induction 1 as [|e d He Hd IH]; cbn.
  - case_decide as Hin; [by apply elem_of_nil in Hin|done].
  - rewrite (entry_matches_key k e He).
    case_bool_decide as Hek; cbn.
    + rewrite decide_True; [done|]. rewrite Hek. left.
    + rewrite IH. case_decide as Hin.
      * rewrite decide_True; [done|]. by right.
      * rewrite decide_False; [done|].
        intros [?|?]%elem_of_cons; congruence.
Qed.

Lemma keys_lookup (d : PyDict) (k : TileMetadataKey.t) :
  k ∈ dict_keys d <-> is_Some (dict_lookup d k).
Proof.
  unfold dict_keys, dict_lookup.
  induction d as [|e d IH]; cbn.
  - split; [by intros ?%elem_of_nil|by intros [? ?]].
  - case_bool_decide as Hek; cbn.
    + split; [by eauto|]. intros _. rewrite <- Hek. left.
    + rewrite elem_of_cons, IH. split; [|by right].
      intros [?|?]; [congruence|done].
Qed.

End DictFacts.

(** ** The construction loop *)

Section LoopFacts.
Context `{!Interpreter}.

Lemma loop_body_key (d : PyDict) (tile : Tile.t) :
  TileSetMetadata.loop_body d tile
  = k ← tile_key tile; Ok (dict_setitem d k (Tile.extras tile)).
Proof.
  unfold TileSetMetadata.loop_body, tile_key.
  destruct (indices_getitem _ Indices.ROUND) as [r|]; [|done]. cbn.
  by destruct (indices_getitem _ Indices.CH).
Qed.

Lemma tile_key_fields (tile : Tile.t) (r c : Z) :
  Tile.indices tile !! Indices.ROUND = Some r ->
  Tile.indices tile !! Indices.CH = Some c ->
  tile_key tile
  = Ok (TileMetadataKey.mk r c (default 0 (Tile.indices tile !! Indices.Z))).
Proof.
  intros Hr Hc. unfold tile_key, indices_getitem. by rewrite Hr, Hc.
Qed.

Lemma tile_key_missing (tile : Tile.t) :
  Tile.indices tile !! Indices.ROUND = None
  \/ Tile.indices tile !! Indices.CH = None ->
  exists i, (i = Indices.ROUND \/ i = Indices.CH)
            /\ tile_key tile = Raise (KeyError (PyIndices i)).
Proof.
  unfold tile_key, indices_getitem.
  destruct (Tile.indices tile !! Indices.ROUND) as [r|] eqn:Hr.
  - intros [?|Hc]; [done|]. exists Indices.CH. rewrite Hc. auto.
  - intros _. exists Indices.ROUND. auto.
Qed.

Lemma for_tiles_app (pre post : list Tile.t) (d : PyDict) :
  TileSetMetadata.for_tiles (pre ++ post) d
  = d' ← TileSetMetadata.for_tiles pre d; TileSetMetadata.for_tiles post d'.
Proof.
  revert d. induction pre as [|tile pre IH]; intros d; [done|].
  cbn. destruct (TileSetMetadata.loop_body d tile) as [d1|]; [|done].
  apply IH.
Qed.

Lemma for_tiles_wf (tiles : list Tile.t) (d d' : PyDict) :
  dict_wf d -> TileSetMetadata.for_tiles tiles d = Ok d' -> dict_wf d'.
Proof.
  revert d. induction tiles as [|tile tiles IH]; intros d Hwf; cbn.
  - by intros [= <-].
  - rewrite loop_body_key. destruct (tile_key tile) as [k|]; [|done]. cbn.
    apply IH. by apply setitem_wf.
Qed.

Lemma for_tiles_missing (tiles : list Tile.t) (d : PyDict) :
  Exists (fun tile => Tile.indices tile !! Indices.ROUND = None
                      \/ Tile.indices tile !! Indices.CH = None) tiles ->
  exists i, (i = Indices.ROUND \/ i = Indices.CH)
            /\ TileSetMetadata.for_tiles tiles d = Raise (KeyError (PyIndices i)).
Proof.
  intros Hbad. revert d.
  induction tiles as [|tile tiles IH]; intros d; [by inversion Hbad|].
  cbn. rewrite loop_body_key.
  destruct (tile_key tile) as [k|e] eqn:Hk; cbn.
  - apply IH. inversion Hbad as [? ? Hhere|]; subst; [|done].
    destruct (tile_key_missing tile Hhere) as (i & _ & Hraise). congruence.
  - destruct (decide (Tile.indices tile !! Indices.ROUND = None
                      \/ Tile.indices tile !! Indices.CH = None)) as [Hhere|Hnot].
    + destruct (tile_key_missing tile Hhere) as (i & Hi & Hraise).
      exists i. split; [done|]. congruence.
    + destruct (Tile.indices tile !! Indices.ROUND) as [r|] eqn:Hr; [|tauto].
      destruct (Tile.indices tile !! Indices.CH) as [c|] eqn:Hc; [|tauto].
      rewrite (tile_key_fields tile r c Hr Hc) in Hk. done.
Qed.

Lemma for_tiles_all_keys (tiles : list Tile.t) (d d' : PyDict) :
  TileSetMetadata.for_tiles tiles d = Ok d' ->
  Forall (fun tile => exists k, tile_key tile = Ok k) tiles.
Proof.
  revert d. induction tiles as [|tile tiles IH]; intros d; cbn; [by constructor|].
  rewrite loop_body_key. destruct (tile_key tile) as [k|] eqn:Hk; [|done]. cbn.
  intros Hrest. constructor; [by exists k|]. by eapply IH.
Qed.

Lemma for_tiles_lookup (tiles : list Tile.t) (d d' : PyDict) (k : TileMetadataKey.t) :
  dict_wf d ->
  TileSetMetadata.for_tiles tiles d = Ok d' ->
  dict_lookup d' k
  = match last_extras k tiles with
    | Some v => Some v
    | None => dict_lookup d k
    end.
Proof.
  revert d. induction tiles as [|tile tiles IH]; intros d Hwf; cbn.
  - by intros [= <-].
  - rewrite loop_body_key. destruct (tile_key tile) as [k'|] eqn:Hk; [|done]. cbn.
    intros Hrest. rewrite (IH _ (setitem_wf d k' _ Hwf) Hrest).
    destruct (last_extras k tiles); [done|].
    rewrite (lookup_setitem d k' k _ Hwf).
    repeat case_decide; congruence.
Qed.

Lemma for_tiles_keys (tiles : list Tile.t) (ks : list TileMetadataKey.t) (d : PyDict) :
  dict_wf d ->
  Forall2 (fun tile k => tile_key tile = Ok k) tiles ks ->
  NoDup (dict_keys d ++ ks) ->
  exists d', TileSetMetadata.for_tiles tiles d = Ok d'
             /\ dict_keys d' = dict_keys d ++ ks.
Proof.
  intros Hwf Hks. revert d Hwf.
  induction Hks as [|tile k tiles ks Hk _ IH]; intros d Hwf Hnd; cbn.
  - exists d. by rewrite app_nil_r.
  - rewrite loop_body_key, Hk. cbn.
    assert (Hfresh : k ∉ dict_keys d).
    { apply NoDup_app in Hnd as (_ & Hdisj & _). intros Hin.
      apply (Hdisj k Hin). left. }
    destruct (IH (dict_setitem d k (Tile.extras tile))) as (d' & Hd' & Hkeys).
    + by apply setitem_wf.
    + rewrite (keys_setitem d k _ Hwf), decide_False by done.
      by rewrite <- app_assoc.
    + exists d'. split; [done|].
      rewrite Hkeys, (keys_setitem d k _ Hwf), decide_False by done.
      by rewrite <- app_assoc.
Qed.

Lemma for_tiles_total (tiles : list Tile.t) (d : PyDict) :
  Forall (fun tile => exists k, tile_key tile = Ok k) tiles ->
  exists d', TileSetMetadata.for_tiles tiles d = Ok d'.
Proof.
  intros Hall. revert d.
  induction Hall as [|tile tiles [k Hk] _ IH]; intros d; cbn; [by eauto|].
  rewrite loop_body_key, Hk. cbn. apply IH.
Qed.

Lemma last_extras_none (k : TileMetadataKey.t) (tiles : list Tile.t) :
  Forall (fun tile => tile_key tile ≠ Ok k) tiles -> last_extras k tiles = None.
Proof.
  induction 1 as [|tile tiles Hne _ IH]; cbn; [done|].
  rewrite IH. destruct (tile_key tile) as [k'|]; [|done].
  case_decide; congruence.
Qed.

Lemma last_extras_some (k : TileMetadataKey.t) (tiles : list Tile.t) (v : PyRef) :
  last_extras k tiles = Some v ->
  exists tile, tile ∈ tiles /\ tile_key tile = Ok k /\ Tile.extras tile = v.
Proof.
  induction tiles as [|tile tiles IH]; cbn; [done|].
  destruct (last_extras k tiles) as [w|].
  - intros [= ->]. destruct IH as (t & Hin & Hk & Hv); [done|].
    exists t. split; [by right|done].
  - destruct (tile_key tile) as [k'|] eqn:Hk; [|done].
    case_decide as Hkk; [|done]. intros [= <-].
    exists tile. split; [left|]. by rewrite Hkk in Hk.
Qed.

Lemma last_extras_last (k : TileMetadataKey.t) (pre post : list Tile.t) (tile : Tile.t) :
  tile_key tile = Ok k ->
  Forall (fun t => tile_key t ≠ Ok k) post ->
  last_extras k (pre ++ tile :: post) = Some (Tile.extras tile).
Proof.
  intros Hk Hpost. induction pre as [|t pre IH]; cbn.
  - rewrite (last_extras_none k post Hpost), Hk. by rewrite decide_True.
  - by rewrite IH.
Qed.

End LoopFacts.

Lemma last_extras_elem (k : TileMetadataKey.t) (tiles : list Tile.t) (tile : Tile.t) :
  tile ∈ tiles -> tile_key tile = Ok k -> is_Some (last_extras k tiles).
Proof.
  intros Hin Hk. induction Hin as [tile rest|tile t rest _ IH]; cbn.
  - destruct (last_extras k rest); [by eauto|].
    rewrite Hk, decide_True by done. by eauto.
  - destruct (IH Hk) as [v ->]. by eauto.
Qed.

(** ** The persistence round trip *)

Example cells_of_test_shape : IntensityTable.cells [1; 5; 2; 2; 5]%nat = 100%nat.
Proof. reflexivity. Qed.

Lemma container_round_trip (d : IntensityTable.t) :
  IntensityTable.well_formed d = true ->
  IntensityTable.container_valid (IntensityTable.to_container d) = true
  /\ IntensityTable.of_container (IntensityTable.to_container d) = d.
Proof.
  unfold IntensityTable.well_formed, IntensityTable.container_valid.
  rewrite !andb_true_iff, !bool_decide_eq_true.
  intros [[Hdims Hvalues] Hcoords]. cbn.
  assert (Hshape : (zip (IntensityTable.dims d) (IntensityTable.shape d)).*2
                   = IntensityTable.shape d) by (apply snd_zip; lia).
  assert (Hnames : (zip (IntensityTable.dims d) (IntensityTable.shape d)).*1
                   = IntensityTable.dims d) by (apply fst_zip; lia).
  split.
  - split; [|done]. by rewrite Hshape.
  - unfold IntensityTable.of_container. cbn.
    rewrite Hshape, Hnames, !list_to_map_to_list. by destruct d.
Qed.

Lemma load_save (d : IntensityTable.t) (path : string) (disk : IntensityTable.FileSystem) :
  IntensityTable.well_formed d = true ->
  IntensityTable.writable disk path = true ->
  exists disk', IntensityTable.save d path disk = inr disk'
                /\ IntensityTable.load path disk' = inr d.
Proof.
  intros Hwf Hw. destruct (container_round_trip d Hwf) as [Hvalid Hback].
  unfold IntensityTable.save. rewrite Hw. eexists. split; [done|].
  unfold IntensityTable.load. cbn.
  by rewrite lookup_insert_eq, Hvalid, Hback.
Qed.

Lemma equals_refl (d : IntensityTable.t) : IntensityTable.equals d d = true.
Proof. unfold IntensityTable.equals. by rewrite !bool_decide_eq_true_2. Qed.

(** ** The claims *)

(** C1. Round trip of the serialization test: a well-formed dataset of
    shape (1, 5, 2, 2, 5) whose values are all zero, saved to a writable
    path and loaded from it again, comes back as a dataset that [equals]
    accepts: same axes, shape and dtype, the same value at every index, the
    same coordinate arrays and the same attributes. *)
Theorem zero_table_round_trip
    (d : IntensityTable.t) (path : string) (disk : IntensityTable.FileSystem) :
  IntensityTable.shape d = [1; 5; 2; 2; 5]%nat ->
  IntensityTable.values d = replicate 100 0 ->
  IntensityTable.well_formed d = true ->
  IntensityTable.writable disk path = true ->
  exists disk' loaded,
    IntensityTable.save d path disk = inr disk'
    /\ IntensityTable.load path disk' = inr loaded
    /\ IntensityTable.equals d loaded = true.
Proof.
  intros _ _ Hwf Hw.
  destruct (load_save d path disk Hwf Hw) as (disk' & Hsave & Hload).
  exists disk', d. auto using equals_refl.
Qed.

Lemma zero_table_round_trip_witness :
  exists disk' loaded,
    IntensityTable.save zero_table "test.nc" sample_disk = inr disk'
    /\ IntensityTable.load "test.nc" disk' = inr loaded
    /\ IntensityTable.equals zero_table loaded = true.
Proof.
  apply (zero_table_round_trip zero_table "test.nc" sample_disk);
    vm_compute; reflexivity.
Defined.

(** C9. [__hash__] returns exactly the exclusive or of the three fields,
    so a key built from the same three integers in another order has the
    same hash, as (1, 0, 0) and (0, 1, 0) do although they are unequal. *)
Theorem hash_is_xor_of_fields (r c z : Z) :
  __hash__ (TileMetadataKey.__init__ r c z) = Z.lxor (Z.lxor r c) z
  /\ forall r' c' z' : Z,
       [r; c; z] ≡ₚ [r'; c'; z'] ->
       __hash__ (TileMetadataKey.__init__ r' c' z')
       = __hash__ (TileMetadataKey.__init__ r c z).
Proof.
  split; [apply hash_xor|].
  intros r' c' z' Hperm. rewrite !hash_xor. by apply lxor3_perm.
Qed.

Lemma hash_is_xor_of_fields_witness :
  [1; 0; 0] ≡ₚ [0; 1; 0]
  /\ __eq__ (TileMetadataKey.__init__ 1 0 0) (PyKey (TileMetadataKey.__init__ 0 1 0)) = false
  /\ __hash__ (TileMetadataKey.__init__ 1 0 0) = 1
  /\ __hash__ (TileMetadataKey.__init__ 0 1 0) = __hash__ (TileMetadataKey.__init__ 1 0 0).
Proof.
  assert (Hperm : [1; 0; 0] ≡ₚ [0; 1; 0]) by apply perm_swap.
  split; [exact Hperm|]. split; [reflexivity|]. split; [reflexivity|].
  exact (proj2 (hash_is_xor_of_fields 1 0 0) 0 1 0 Hperm).
Defined.

Section Claims.
Context `{!Interpreter}.

(** C2. Two keys constructed from the same (r, c, z) are equal and have the
    same hash, both as [__hash__] returns it and as the interpreter reduces
    it; [__eq__] answers [False] on every object that is not a key.  It is a
    total function to [bool]: no input makes it raise. *)
Theorem key_equality_hash_law (r c z : Z) (k1 k2 : TileMetadataKey.t) :
  k1 = TileMetadataKey.__init__ r c z ->
  k2 = TileMetadataKey.__init__ r c z ->
  __eq__ k1 (PyKey k2) = true
  /\ __hash__ k1 = __hash__ k2
  /\ py_hash (PyKey k1) = py_hash (PyKey k2)
  /\ forall other : PyObj,
       isinstance_TileMetadataKey other = false -> __eq__ k1 other = false.
Proof.
  intros -> ->. rewrite eq_key_spec, bool_decide_eq_true_2 by done.
  repeat split. intros other. apply eq_non_key.
Qed.

(** C3. When some tile has no round index or no channel index, the
    constructor raises the [KeyError] of the missing index and returns no
    registry.  A registry it does return has an entry for the key of every
    tile: there is no outcome in between. *)
Theorem construction_fails_fast (tileset : TileSet.t) :
  (Exists (fun tile => Tile.indices tile !! Indices.ROUND = None
                       \/ Tile.indices tile !! Indices.CH = None)
          (TileSet.tiles tileset) ->
   (exists i, (i = Indices.ROUND \/ i = Indices.CH)
              /\ TileSetMetadata.__init__ tileset = Raise (KeyError (PyIndices i)))
   /\ forall reg, TileSetMetadata.__init__ tileset ≠ Ok reg)
  /\ (forall reg,
        TileSetMetadata.__init__ tileset = Ok reg ->
        Forall (fun tile => exists k, tile_key tile = Ok k
                                      /\ k ∈ TileSetMetadata.keys reg)
               (TileSet.tiles tileset)).
Proof.
  unfold TileSetMetadata.__init__. split.
  - intros Hbad.
    destruct (for_tiles_missing (TileSet.tiles tileset) [] Hbad) as (i & Hi & Hraise).
    rewrite Hraise. cbn. split; [by exists i|done].
  - intros reg.
    destruct (TileSetMetadata.for_tiles _ []) as [d|] eqn:Hloop; [|done].
    cbn. intros [= <-]. unfold TileSetMetadata.keys. cbn.
    pose proof (for_tiles_all_keys _ _ _ Hloop) as Hall.
    apply Forall_forall. intros tile Hin.
    destruct (proj1 (Forall_forall _ _) Hall tile Hin) as [k Hk].
    exists k. split; [done|]. apply keys_lookup.
    rewrite (for_tiles_lookup _ [] d k (Forall_nil_2 _) Hloop).
    destruct (last_extras_elem k _ tile Hin Hk) as [v ->]. by eauto.
Qed.

(** C4. In a registry built from a tile set, the lookup of a key that no
    tile yields raises [KeyError] with that key; a lookup that returns was
    made with a key whose three fields are those of some tile, and returns
    the extras of such a tile. *)
Theorem lookup_unregistered_key_fails
    (tileset : TileSet.t) (reg : TileSetMetadata.t) (k : TileMetadataKey.t) :
  TileSetMetadata.__init__ tileset = Ok reg ->
  ((forall tile, tile ∈ TileSet.tiles tileset -> tile_key tile ≠ Ok k) ->
   TileSetMetadata.__getitem__ reg (PyKey k) = Raise (KeyError (PyKey k)))
  /\ (forall v,
        TileSetMetadata.__getitem__ reg (PyKey k) = Ok v ->
        exists tile, tile ∈ TileSet.tiles tileset
                     /\ tile_key tile = Ok k
                     /\ Tile.extras tile = v).
Proof.
  unfold TileSetMetadata.__init__, TileSetMetadata.__getitem__.
  destruct (TileSetMetadata.for_tiles _ []) as [d|] eqn:Hloop; [|done].
  intros Hreg. cbn in Hreg. injection Hreg as <-.
  cbn [TileSetMetadata.tile_extras].
  pose proof (for_tiles_wf _ [] d (Forall_nil_2 _) Hloop) as Hwf.
  rewrite (getitem_key d k Hwf),
    (for_tiles_lookup _ [] d k (Forall_nil_2 _) Hloop).
  split.
  - intros Hnone. rewrite last_extras_none; [done|].
    by apply Forall_forall.
  - intros v. destruct (last_extras k _) as [w|] eqn:Hlast; [|done].
    intros [= <-]. by apply last_extras_some.
Qed.

(** C5. When the N tiles of a tile set yield pairwise distinct keys, the
    constructor returns a registry whose dict has N entries and whose
    [keys()] are those N keys. *)
Theorem registry_completeness (tileset : TileSet.t) (ks : list TileMetadataKey.t) :
  Forall2 (fun tile k => tile_key tile = Ok k) (TileSet.tiles tileset) ks ->
  NoDup ks ->
  exists reg,
    TileSetMetadata.__init__ tileset = Ok reg
    /\ dict_len (TileSetMetadata.tile_extras reg) = length (TileSet.tiles tileset)
    /\ length (TileSetMetadata.keys reg) = length (TileSet.tiles tileset)
    /\ TileSetMetadata.keys reg ≡ₚ ks.
Proof.
  intros Hks Hnd. unfold TileSetMetadata.__init__.
  destruct (for_tiles_keys _ ks [] (Forall_nil_2 _) Hks Hnd) as (d & -> & Hkeys).
  cbn in Hkeys. eexists. split; [done|].
  unfold TileSetMetadata.keys, dict_len.
  cbn [TileSetMetadata.tile_extras].
  assert (Hlen : length d = length (TileSet.tiles tileset)).
  { rewrite (Forall2_length _ _ _ Hks), <- Hkeys. unfold dict_keys.
    by rewrite length_map. }
  split; [done|]. split; [|by rewrite Hkeys].
  unfold dict_keys. by rewrite length_map.
Qed.

(** C6. A tile with a round index r and a channel index c and no z index
    is registered under the key (r, c, 0): the assignment made for that tile
    stores its extras under that key, the key is among the keys of the
    finished registry, and the registry returns the extras of that very tile
    unless a later tile yields the same key. *)
Theorem default_z_registration
    (tileset : TileSet.t) (reg : TileSetMetadata.t)
    (pre post : list Tile.t) (tile : Tile.t) (r c : Z) :
  TileSetMetadata.__init__ tileset = Ok reg ->
  TileSet.tiles tileset = pre ++ tile :: post ->
  Tile.indices tile !! Indices.ROUND = Some r ->
  Tile.indices tile !! Indices.CH = Some c ->
  Tile.indices tile !! Indices.Z = None ->
  let key := TileMetadataKey.__init__ r c 0 in
  (exists d, TileSetMetadata.for_tiles (pre ++ [tile]) [] = Ok d
             /\ dict_getitem d (PyKey key) = Ok (Tile.extras tile))
  /\ key ∈ TileSetMetadata.keys reg
  /\ (Forall (fun later => tile_key later ≠ Ok key) post ->
      TileSetMetadata.__getitem__ reg (PyKey key) = Ok (Tile.extras tile)).
Proof.
  intros Hinit Htiles Hr Hc Hz key.
  assert (Hkey : tile_key tile = Ok key).
  { rewrite (tile_key_fields tile r c Hr Hc), Hz. done. }
  unfold TileSetMetadata.__init__ in Hinit. rewrite Htiles in Hinit.
  destruct (TileSetMetadata.for_tiles (pre ++ tile :: post) []) as [d|] eqn:Hloop;
    [|done].
  cbn in Hinit. injection Hinit as <-.
  pose proof (for_tiles_wf _ [] d (Forall_nil_2 _) Hloop) as Hwf.
  pose proof (for_tiles_lookup _ [] d key (Forall_nil_2 _) Hloop) as Hfinal.
  unfold TileSetMetadata.keys, TileSetMetadata.__getitem__.
  cbn [TileSetMetadata.tile_extras].
  split; [|split].
  - change (pre ++ tile :: post) with (pre ++ [tile] ++ post) in Hloop.
    rewrite app_assoc, for_tiles_app in Hloop.
    destruct (TileSetMetadata.for_tiles (pre ++ [tile]) []) as [d1|] eqn:Hd1; [|done].
    exists d1. split; [done|].
    rewrite (getitem_key d1 key (for_tiles_wf _ [] d1 (Forall_nil_2 _) Hd1)),
      (for_tiles_lookup _ [] d1 key (Forall_nil_2 _) Hd1),
      (last_extras_last key pre [] tile Hkey (Forall_nil_2 _)).
    done.
  - apply keys_lookup. rewrite Hfinal.
    destruct (last_extras_elem key (pre ++ tile :: post) tile) as [v ->]; [|done|by eauto].
    apply elem_of_app. right. left.
  - intros Hpost.
    by rewrite (getitem_key d key Hwf), Hfinal,
      (last_extras_last key pre post tile Hkey Hpost).
Qed.

(** C7. Two tiles that yield the same key do not make the constructor
    raise: when every tile has its round and channel indices it returns a
    registry, and the entry of the shared key holds the extras of the later
    of the tiles that yield it. *)
Theorem last_write_wins
    (tileset : TileSet.t) (pre mid post : list Tile.t)
    (earlier later : Tile.t) (k : TileMetadataKey.t) :
  TileSet.tiles tileset = pre ++ earlier :: mid ++ later :: post ->
  tile_key earlier = Ok k ->
  tile_key later = Ok k ->
  Forall (fun tile => exists k', tile_key tile = Ok k') (TileSet.tiles tileset) ->
  Forall (fun tile => tile_key tile ≠ Ok k) post ->
  exists reg,
    TileSetMetadata.__init__ tileset = Ok reg
    /\ TileSetMetadata.__getitem__ reg (PyKey k) = Ok (Tile.extras later).
Proof.
  intros Htiles _ Hlater Hall Hpost.
  unfold TileSetMetadata.__init__, TileSetMetadata.__getitem__.
  destruct (for_tiles_total _ [] Hall) as [d Hloop]. rewrite Hloop.
  eexists. split; [done|]. cbn [TileSetMetadata.tile_extras].
  rewrite (getitem_key d k (for_tiles_wf _ [] d (Forall_nil_2 _) Hloop)),
    (for_tiles_lookup _ [] d k (Forall_nil_2 _) Hloop), Htiles.
  change (pre ++ earlier :: mid ++ later :: post)
    with (pre ++ [earlier] ++ mid ++ later :: post).
  rewrite !app_assoc.
  by rewrite (last_extras_last k _ post later Hlater Hpost).
Qed.

(** C8. The [extras] property of a registry returns the reference the tile
    set exposed as its extras when the registry was built: the same dict
    object and not a copy, so that in every heap both denote the same
    contents. *)
Theorem collection_metadata_passthrough (tileset : TileSet.t) (reg : TileSetMetadata.t) :
  TileSetMetadata.__init__ tileset = Ok reg ->
  TileSetMetadata.extras reg = TileSet.extras tileset
  /\ forall heap : Heap,
       heap !! TileSetMetadata.extras reg = heap !! TileSet.extras tileset.
Proof.
  unfold TileSetMetadata.__init__.
  destruct (TileSetMetadata.for_tiles _ []) as [d|]; [|done].
  intros Hreg. cbn in Hreg. injection Hreg as <-. done.
Qed.

(** C10, as the code has it. A lookup with an object that is not a key
    never returns, whatever the registry holds: a hashable one raises
    [KeyError], because [__eq__] of every stored key rejects it, also when
    its hash is the hash of a stored key; an unhashable one raises
    [TypeError] before any comparison. *)
Theorem lookup_non_key_fails (reg : TileSetMetadata.t) (o : PyObj) :
  isinstance_TileMetadataKey o = false ->
  (hashable o = true ->
   TileSetMetadata.__getitem__ reg o = Raise (KeyError o))
  /\ (hashable o = false ->
      TileSetMetadata.__getitem__ reg o = Raise unhashable_list).
Proof.
  intros Ho. unfold TileSetMetadata.__getitem__. split.
  - by apply getitem_non_key.
  - apply getitem_unhashable.
Qed.

End Claims.

(** ** Worked instances *)

Lemma key_equality_hash_law_witness :
  let k1 := TileMetadataKey.__init__ 1 2 3 in
  let k2 := TileMetadataKey.__init__ 1 2 3 in
  __eq__ k1 (PyKey k2) = true
  /\ __hash__ k1 = __hash__ k2
  /\ @py_hash sample_interpreter (PyKey k1) = @py_hash sample_interpreter (PyKey k2)
  /\ forall other : PyObj,
       isinstance_TileMetadataKey other = false -> __eq__ k1 other = false.
Proof.
  exact (@key_equality_hash_law sample_interpreter 1 2 3 _ _ eq_refl eq_refl).
Defined.

Lemma construction_fails_fast_witness :
  (exists i, (i = Indices.ROUND \/ i = Indices.CH)
             /\ @TileSetMetadata.__init__ sample_interpreter sample_tileset_bad
                = Raise (KeyError (PyIndices i)))
  /\ forall reg, @TileSetMetadata.__init__ sample_interpreter sample_tileset_bad ≠ Ok reg.
Proof.
  apply (proj1 (@construction_fails_fast sample_interpreter sample_tileset_bad)).
  apply Exists_cons_tl, Exists_cons_hd. right. vm_compute. reflexivity.
Defined.

Lemma lookup_unregistered_key_fails_witness :
  @TileSetMetadata.__getitem__ sample_interpreter sample_registry
    (PyKey (TileMetadataKey.mk 1 1 0))
  = Raise (KeyError (PyKey (TileMetadataKey.mk 1 1 0))).
Proof.
  apply (proj1 (@lookup_unregistered_key_fails sample_interpreter
                  sample_tileset sample_registry (TileMetadataKey.mk 1 1 0)
                  sample_registry_built)).
  intros tile Hin.
  repeat (apply elem_of_cons in Hin as [->|Hin]);
    [vm_compute; discriminate .. | by apply elem_of_nil in Hin].
Defined.

Lemma registry_completeness_witness :
  exists reg,
    @TileSetMetadata.__init__ sample_interpreter sample_tileset_distinct = Ok reg
    /\ @dict_len (TileSetMetadata.tile_extras reg) = 2%nat
    /\ length (TileSetMetadata.keys reg) = 2%nat
    /\ TileSetMetadata.keys reg ≡ₚ [TileMetadataKey.mk 1 0 0; TileMetadataKey.mk 0 1 0].
Proof.
  apply (@registry_completeness sample_interpreter sample_tileset_distinct
           [TileMetadataKey.mk 1 0 0; TileMetadataKey.mk 0 1 0]).
  - repeat constructor.
  - refine (bool_decide_unpack _ _). vm_compute. exact I.
Defined.

Lemma default_z_registration_witness :
  (exists d,
     @TileSetMetadata.for_tiles sample_interpreter
       [sample_tile 1 0 (Some 0) 11%positive; sample_tile 0 1 None 12%positive] []
     = Ok d
     /\ @dict_getitem sample_interpreter d (PyKey (TileMetadataKey.mk 0 1 0))
        = Ok 12%positive)
  /\ TileMetadataKey.mk 0 1 0 ∈ TileSetMetadata.keys sample_registry
  /\ @TileSetMetadata.__getitem__ sample_interpreter sample_registry
       (PyKey (TileMetadataKey.mk 0 1 0))
     = Ok 12%positive.
Proof.
  destruct (@default_z_registration sample_interpreter sample_tileset sample_registry
              [sample_tile 1 0 (Some 0) 11%positive]
              [sample_tile 1 0 (Some 0) 13%positive]
              (sample_tile 0 1 None 12%positive) 0 1)
    as (Hturn & Hkeys & Hlast); [vm_compute; reflexivity ..|].
  split; [exact Hturn|]. split; [exact Hkeys|].
  apply Hlast. repeat constructor. vm_compute. discriminate.
Defined.

Lemma last_write_wins_witness :
  exists reg,
    @TileSetMetadata.__init__ sample_interpreter sample_tileset = Ok reg
    /\ @TileSetMetadata.__getitem__ sample_interpreter reg
         (PyKey (TileMetadataKey.mk 1 0 0))
       = Ok 13%positive.
Proof.
  apply (@last_write_wins sample_interpreter sample_tileset
           [] [sample_tile 0 1 None 12%positive] []
           (sample_tile 1 0 (Some 0) 11%positive)
           (sample_tile 1 0 (Some 0) 13%positive)
           (TileMetadataKey.mk 1 0 0)).
  - reflexivity.
  - vm_compute. reflexivity.
  - vm_compute. reflexivity.
  - repeat constructor; eexists; vm_compute; reflexivity.
  - constructor.
Defined.

Lemma collection_metadata_passthrough_witness :
  TileSetMetadata.extras sample_registry = 10%positive
  /\ forall heap : Heap,
       heap !! TileSetMetadata.extras sample_registry = heap !! 10%positive.
Proof.
  exact (@collection_metadata_passthrough sample_interpreter
           sample_tileset sample_registry sample_registry_built).
Defined.

Lemma lookup_non_key_fails_witness :
  isinstance_TileMetadataKey (PyTuple [PyInt 1; PyInt 0; PyInt 0]) = false
  /\ @py_hash sample_interpreter (PyTuple [PyInt 1; PyInt 0; PyInt 0])
     = @py_hash sample_interpreter (PyKey (TileMetadataKey.mk 1 0 0))
  /\ @TileSetMetadata.__getitem__ sample_interpreter sample_registry
       (PyTuple [PyInt 1; PyInt 0; PyInt 0])
     = Raise (KeyError (PyTuple [PyInt 1; PyInt 0; PyInt 0])).
Proof.
  split; [reflexivity|]. split; [reflexivity|].
  apply (proj1 (@lookup_non_key_fails sample_interpreter sample_registry
                  (PyTuple [PyInt 1; PyInt 0; PyInt 0]) eq_refl)).
  reflexivity.
Defined.

(** C10, as the claim states it, fails on an unhashable probe: the list
    [[1, 0, 0]] is not a key, and the lookup raises [TypeError], not
    [KeyError]. *)
Lemma lookup_list_raises_type_error :
  isinstance_TileMetadataKey (PyList [PyInt 1; PyInt 0; PyInt 0]) = false
  /\ @TileSetMetadata.__getitem__ sample_interpreter sample_registry
       (PyList [PyInt 1; PyInt 0; PyInt 0])
     = Raise unhashable_list
  /\ @TileSetMetadata.__getitem__ sample_interpreter sample_registry
       (PyList [PyInt 1; PyInt 0; PyInt 0])
     ≠ Raise (KeyError (PyList [PyInt 1; PyInt 0; PyInt 0])).
Proof. repeat split. vm_compute. discriminate. Qed.

(** * Further properties of the module *)

(** ** The key *)

Example repr_of_key :
  __repr__ (TileMetadataKey.__init__ 1 20 (-3)) = "round: 1 ch: 20 z: -3"%string.
Proof. vm_compute. reflexivity. Qed.

(** X1. Two keys are equal exactly when their round, channel and z agree,
    as read through the three properties; so [__eq__] on keys is reflexive,
    symmetric and transitive. *)
Theorem eq_iff_fields_agree :
  (forall a b : TileMetadataKey.t,
     __eq__ a (PyKey b) = true
     <-> TileMetadataKey.round a = TileMetadataKey.round b
         /\ TileMetadataKey.ch a = TileMetadataKey.ch b
         /\ TileMetadataKey.z a = TileMetadataKey.z b)
  /\ (forall a : TileMetadataKey.t, __eq__ a (PyKey a) = true)
  /\ (forall a b : TileMetadataKey.t, __eq__ a (PyKey b) = __eq__ b (PyKey a))
  /\ (forall a b c : TileMetadataKey.t,
        __eq__ a (PyKey b) = true -> __eq__ b (PyKey c) = true ->
        __eq__ a (PyKey c) = true).
Proof.
  split; [|split; [|split]].
  - intros a b. rewrite eq_key_spec, bool_decide_eq_true. split.
    + by intros ->.
    + destruct a, b. cbn. by intros (-> & -> & ->).
  - intros a. by rewrite eq_key_spec, bool_decide_eq_true.
  - intros a b. rewrite !eq_key_spec.
    apply bool_decide_ext. split; congruence.
  - intros a b c. rewrite !eq_key_spec, !bool_decide_eq_true. congruence.
Qed.

Lemma lxor_below_pow2 (n a b : Z) :
  0 <= n -> 0 <= a < 2 ^ n -> 0 <= b < 2 ^ n -> 0 <= Z.lxor a b < 2 ^ n.
Proof.
  intros Hn Ha Hb.
  assert (Hnonneg : 0 <= Z.lxor a b) by (apply Z.lxor_nonneg; lia).
  split; [done|].
  destruct (decide (Z.lxor a b = 0)) as [->|Hne]; [lia|].
  apply Z.log2_lt_pow2; [lia|].
  assert (Hlog : forall x, 0 <= x < 2 ^ n -> x ≠ 0 -> Z.log2 x < n).
  { intros x Hx Hx0. apply Z.log2_lt_pow2; lia. }
  pose proof (Z.log2_lxor a b ltac:(lia) ltac:(lia)) as Hmax.
  destruct (decide (a = 0)) as [->|Ha0], (decide (b = 0)) as [->|Hb0].
  - by rewrite Z.lxor_0_l in Hne.
  - rewrite Z.lxor_0_l. by apply Hlog.
  - rewrite Z.lxor_0_r. by apply Hlog.
  - specialize (Hlog a Ha Ha0) as Hla. specialize (Hlog b Hb Hb0) as Hlb. lia.
Qed.

(** X2. When the three fields are non-negative and below 2^n, so is the
    hash: it never leaves the range of the fields. *)
Theorem hash_within_field_range (n r c z : Z) :
  0 <= n ->
  0 <= r < 2 ^ n -> 0 <= c < 2 ^ n -> 0 <= z < 2 ^ n ->
  0 <= __hash__ (TileMetadataKey.__init__ r c z) < 2 ^ n.
Proof.
  intros Hn Hr Hc Hz. rewrite hash_xor.
  apply lxor_below_pow2; [done| |done]. by apply lxor_below_pow2.
Qed.

Lemma hash_within_field_range_witness :
  0 <= __hash__ (TileMetadataKey.__init__ 5 3 6) < 2 ^ 3.
Proof. apply (hash_within_field_range 3 5 3 6); lia. Defined.

(** X3. The hash does not separate keys: for every round, every channel and
    every value h there is a z, namely round ^ ch ^ h, whose key has hash h.
    Every key with equal round and channel has its z as hash. *)
Theorem hash_reaches_every_value (r c h : Z) :
  __hash__ (TileMetadataKey.__init__ r c (Z.lxor (Z.lxor r c) h)) = h
  /\ __hash__ (TileMetadataKey.__init__ r r h) = h.
Proof.
  rewrite !hash_xor. split.
  - by rewrite <- Z.lxor_assoc, Z.lxor_nilpotent, Z.lxor_0_l.
  - by rewrite Z.lxor_nilpotent, Z.lxor_0_l.
Qed.

(** ** The printed form of a key *)

Lemma pretty_N_go_no_space (x : N) (s : string) :
  has_space s = false -> has_space (pretty_N_go x s) = false.
Proof.
  revert s. induction (N.lt_wf_0 x) as [x _ IH]; intros s Hs.
  assert (x = 0 ∨ 0 < x)%N as [->|Hpos] by lia.
  - by rewrite pretty_N_go_0.
  - rewrite pretty_N_go_step by done. apply IH.
    { by apply N.div_lt. }
    cbn. rewrite Hs, orb_false_r. apply bool_decide_eq_false.
    unfold pretty_N_char. by repeat case_match.
Qed.

Lemma pretty_Z_no_space (x : Z) : has_space (pretty x) = false.
Proof.
  assert (HN : forall n : N, has_space (pretty n) = false).
  { intros n. unfold pretty, pretty_N. case_decide; [done|].
    by apply pretty_N_go_no_space. }
  destruct x as [|p|p]; [done|apply HN|].
  unfold pretty, pretty_Z. cbn. apply HN.
Qed.

Lemma split_at_space (a a' b b' : string) :
  has_space a = false -> has_space a' = false ->
  a +:+ String " " b = a' +:+ String " " b' -> a = a' /\ b = b'.
Proof.
  revert a'. induction a as [|x a IH]; intros [|x' a']; cbn.
  - intros _ _ [= ->]. done.
  - intros _ Hs [= <- _]. by rewrite bool_decide_eq_true_2 in Hs.
  - intros Hs _ [= -> _]. by rewrite bool_decide_eq_true_2 in Hs.
  - intros [_ Ha]%orb_false_elim [_ Ha']%orb_false_elim [= -> Hrest].
    destruct (IH a' Ha Ha' Hrest) as [-> ->]. done.
Qed.

(** X4. The printed form determines the key: two keys with the same
    [__repr__] have the same round, channel and z. *)
Theorem repr_determines_key (a b : TileMetadataKey.t) :
  __repr__ a = __repr__ b -> a = b.
Proof.
  destruct a as [r c z], b as [r' c' z']. unfold __repr__. cbn.
  intros [= Hrest].
  apply split_at_space in Hrest as [Hr Hrest]; [|apply pretty_Z_no_space..].
  cbn in Hrest. injection Hrest as Hrest.
  apply split_at_space in Hrest as [Hc Hrest]; [|apply pretty_Z_no_space..].
  cbn in Hrest. injection Hrest as Hz.
  by rewrite (inj pretty _ _ Hr), (inj pretty _ _ Hc), (inj pretty _ _ Hz).
Qed.

Lemma repr_determines_key_witness :
  TileMetadataKey.__init__ 1 20 (-3) = TileMetadataKey.mk 1 20 (-3).
Proof.
  apply (repr_determines_key (TileMetadataKey.__init__ 1 20 (-3))
           (TileMetadataKey.mk 1 20 (-3))).
  vm_compute. reflexivity.
Defined.

(** ** The keys of the registry, in order *)

Lemma add_keys_cons (seen ks : list TileMetadataKey.t) (k : TileMetadataKey.t) :
  add_keys seen (k :: ks)
  = add_keys (if decide (k ∈ seen) then seen else seen ++ [k]) ks.
Proof. reflexivity. Qed.

Lemma add_keys_extends (seen ks : list TileMetadataKey.t) :
  exists new, add_keys seen ks = seen ++ new.
Proof.
  revert seen. induction ks as [|k ks IH]; intros seen.
  - exists []. by rewrite app_nil_r.
  - rewrite add_keys_cons. case_decide; [apply IH|].
    destruct (IH (seen ++ [k])) as [new ->].
    exists (k :: new). by rewrite <- app_assoc.
Qed.

Lemma add_keys_elem (seen ks : list TileMetadataKey.t) (k : TileMetadataKey.t) :
  k ∈ add_keys seen ks <-> k ∈ seen \/ k ∈ ks.
Proof.
  revert seen. induction ks as [|k' ks IH]; intros seen.
  - cbn. rewrite elem_of_nil. tauto.
  - rewrite add_keys_cons, IH, elem_of_cons. case_decide as Hin.
    + split; [tauto|]. intros [?|[->|?]]; tauto.
    + rewrite elem_of_app, list_elem_of_singleton. tauto.
Qed.

Lemma add_keys_NoDup (seen ks : list TileMetadataKey.t) :
  NoDup seen -> NoDup (add_keys seen ks).
Proof.
  revert seen. induction ks as [|k ks IH]; intros seen Hnd; [done|].
  rewrite add_keys_cons. apply IH. case_decide as Hin; [done|].
  apply NoDup_app. split; [done|]. split; [|apply NoDup_singleton].
  intros x Hx ->%list_elem_of_singleton. done.
Qed.

Lemma add_keys_length (seen ks : list TileMetadataKey.t) :
  (length (add_keys seen ks) <= length seen + length ks)%nat.
Proof.
  revert seen. induction ks as [|k ks IH]; intros seen; cbn [length]; [cbn; lia|].
  rewrite add_keys_cons. case_decide.
  - specialize (IH seen). lia.
  - specialize (IH (seen ++ [k])). rewrite length_app in IH. cbn in IH. lia.
Qed.

Lemma add_keys_full_length (seen ks : list TileMetadataKey.t) :
  NoDup seen ->
  length (add_keys seen ks) = (length seen + length ks)%nat <-> NoDup (seen ++ ks).
Proof.
  revert seen. induction ks as [|k ks IH]; intros seen Hnd.
  - cbn. rewrite app_nil_r. split; [done|lia].
  - rewrite add_keys_cons. cbn [length]. case_decide as Hin.
    + pose proof (add_keys_length seen ks). split; [lia|].
      intros (_ & Hdisj & _)%NoDup_app. destruct (Hdisj k Hin). left.
    + assert (Hnd' : NoDup (seen ++ [k])).
      { apply NoDup_app. split; [done|]. split; [|apply NoDup_singleton].
        intros x Hx ->%list_elem_of_singleton. done. }
      pose proof (IH _ Hnd') as IH'.
      rewrite length_app, <- app_assoc in IH'. cbn in IH'.
      rewrite <- IH'. lia.
Qed.

Lemma last_extras_app (k : TileMetadataKey.t) (pre post : list Tile.t) :
  last_extras k (pre ++ post)
  = match last_extras k post with
    | Some v => Some v
    | None => last_extras k pre
    end.
Proof.
  induction pre as [|tile pre IH]; cbn.
  - by destruct (last_extras k post).
  - rewrite IH. by destruct (last_extras k post).
Qed.

Lemma tile_key_inv (tile : Tile.t) (k : TileMetadataKey.t) :
  tile_key tile = Ok k ->
  exists r c, Tile.indices tile !! Indices.ROUND = Some r
              /\ Tile.indices tile !! Indices.CH = Some c
              /\ k = TileMetadataKey.mk r c (default 0 (Tile.indices tile !! Indices.Z)).
Proof.
  unfold tile_key, indices_getitem.
  destruct (Tile.indices tile !! Indices.ROUND) as [r|]; [|done].
  destruct (Tile.indices tile !! Indices.CH) as [c|]; [|done].
  cbn. intros [= <-]. by exists r, c.
Qed.

Lemma all_keys_list (tiles : list Tile.t) :
  Forall (fun tile => exists k, tile_key tile = Ok k) tiles ->
  exists ks, Forall2 (fun tile k => tile_key tile = Ok k) tiles ks.
Proof.
  induction 1 as [|tile tiles [k Hk] _ [ks IH]].
  - exists []. constructor.
  - exists (k :: ks). by constructor.
Qed.

Lemma keys_list_unique (tiles : list Tile.t) (ks ks' : list TileMetadataKey.t) :
  Forall2 (fun tile k => tile_key tile = Ok k) tiles ks ->
  Forall2 (fun tile k => tile_key tile = Ok k) tiles ks' ->
  ks = ks'.
Proof.
  intros Hks. revert ks'.
  induction Hks as [|tile k tiles ks Hk _ IH]; intros ks' Hks'.
  - by inversion Hks'.
  - inversion Hks' as [|? k' ? ks'' Hk' Hrest]; subst.
    rewrite (IH _ Hrest). congruence.
Qed.

Lemma keys_list_elem (tiles : list Tile.t) (ks : list TileMetadataKey.t) (k : TileMetadataKey.t) :
  Forall2 (fun tile k => tile_key tile = Ok k) tiles ks ->
  k ∈ ks <-> exists tile, tile ∈ tiles /\ tile_key tile = Ok k.
Proof.
  induction 1 as [|tile k' tiles ks Hk _ IH].
  - split; [by intros ?%elem_of_nil|]. by intros (? & ?%elem_of_nil & _).
  - rewrite elem_of_cons, IH. split.
    + intros [->|(t & Hin & Ht)].
      * exists tile. split; [left|done].
      * exists t. split; [by right|done].
    + intros (t & [->|Hin]%elem_of_cons & Ht).
      * left. congruence.
      * right. by exists t.
Qed.

Section RegistryFacts.
Context `{!Interpreter}.

Lemma for_tiles_add_keys (tiles : list Tile.t) (ks : list TileMetadataKey.t) (d : PyDict) :
  dict_wf d ->
  Forall2 (fun tile k => tile_key tile = Ok k) tiles ks ->
  exists d', TileSetMetadata.for_tiles tiles d = Ok d'
             /\ dict_keys d' = add_keys (dict_keys d) ks.
Proof.
  intros Hwf Hks. revert d Hwf.
  induction Hks as [|tile k tiles ks Hk _ IH]; intros d Hwf; cbn.
  - by exists d.
  - rewrite loop_body_key, Hk. cbn.
    destruct (IH _ (setitem_wf d k (Tile.extras tile) Hwf)) as (d' & Hd' & Hkeys).
    exists d'. split; [done|].
    by rewrite Hkeys, (keys_setitem d k _ Hwf).
Qed.

(** What the constructor returns, in terms of the tiles alone. *)
Lemma init_inv (tileset : TileSet.t) (reg : TileSetMetadata.t) :
  TileSetMetadata.__init__ tileset = Ok reg ->
  exists ks,
    Forall2 (fun tile k => tile_key tile = Ok k) (TileSet.tiles tileset) ks
    /\ dict_wf (TileSetMetadata.tile_extras reg)
    /\ TileSetMetadata.keys reg = add_keys [] ks
    /\ TileSetMetadata._extras reg = TileSet.extras tileset
    /\ forall k,
         TileSetMetadata.__getitem__ reg (PyKey k)
         = match last_extras k (TileSet.tiles tileset) with
           | Some v => Ok v
           | None => Raise (KeyError (PyKey k))
           end.
Proof.
  unfold TileSetMetadata.__init__, TileSetMetadata.__getitem__, TileSetMetadata.keys.
  destruct (TileSetMetadata.for_tiles _ []) as [d|] eqn:Hloop; [|done].
  intros Hreg. cbn in Hreg. injection Hreg as <-.
  cbn [TileSetMetadata.tile_extras TileSetMetadata._extras].
  pose proof (for_tiles_wf _ [] d (Forall_nil_2 _) Hloop) as Hwf.
  destruct (all_keys_list _ (for_tiles_all_keys _ _ _ Hloop)) as [ks Hks].
  destruct (for_tiles_add_keys _ ks [] (Forall_nil_2 _) Hks) as (d' & Hd' & Hkeys).
  assert (d' = d) as -> by congruence.
  exists ks. repeat split; try done.
  intros k. rewrite (getitem_key d k Hwf),
    (for_tiles_lookup _ [] d k (Forall_nil_2 _) Hloop).
  by destruct (last_extras k _).
Qed.

End RegistryFacts.

Lemma last_extras_distinct
    (tiles : list Tile.t) (ks : list TileMetadataKey.t)
    (tile : Tile.t) (k : TileMetadataKey.t) :
  Forall2 (fun tile k => tile_key tile = Ok k) tiles ks ->
  NoDup ks ->
  tile ∈ tiles -> tile_key tile = Ok k ->
  last_extras k tiles = Some (Tile.extras tile).
Proof.
  intros Hks. induction Hks as [|t k0 tiles ks Hk0 Hks IH]; intros Hnd Hin Hk.
  - by apply elem_of_nil in Hin.
  - apply NoDup_cons in Hnd as [Hfresh Hnd]. cbn.
    apply elem_of_cons in Hin as [->|Hin].
    + assert (k0 = k) as -> by congruence.
      destruct (last_extras k tiles) as [v|] eqn:Hlast.
      * destruct (last_extras_some k tiles v Hlast) as (t' & Hin' & Hk' & _).
        destruct Hfresh. apply (keys_list_elem tiles ks k Hks). by exists t'.
      * by rewrite Hk, decide_True.
    + by rewrite (IH Hnd Hin Hk).
Qed.

Section RegistryExtras.
Context `{!Interpreter}.

(** X5. The constructor returns a registry exactly when every tile has a
    round index and a channel index; the z index is never required. *)
Theorem construction_succeeds_iff (tileset : TileSet.t) :
  (exists reg, TileSetMetadata.__init__ tileset = Ok reg)
  <-> Forall (fun tile => is_Some (Tile.indices tile !! Indices.ROUND)
                          /\ is_Some (Tile.indices tile !! Indices.CH))
             (TileSet.tiles tileset).
Proof.
  unfold TileSetMetadata.__init__. split.
  - intros [reg Hreg].
    destruct (TileSetMetadata.for_tiles _ []) as [d|] eqn:Hloop; [|done].
    eapply Forall_impl; [exact (for_tiles_all_keys _ _ _ Hloop)|].
    intros tile [k Hk]. cbn in Hk.
    destruct (tile_key_inv tile k Hk) as (r & c & -> & -> & _). by eauto.
  - intros Hall.
    destruct (for_tiles_total (TileSet.tiles tileset) []) as [d ->].
    + eapply Forall_impl; [exact Hall|].
      intros tile [[r Hr] [c Hc]]. cbn.
      rewrite (tile_key_fields tile r c Hr Hc). by eauto.
    + by eexists.
Qed.

(** X6. The exception of a failed construction names the first index
    missing from the first tile that lacks one: ROUND when that tile has no
    round index, whether or not it has a channel index, and CH otherwise.
    Tiles after it are not read. *)
Theorem error_names_first_missing_index
    (tileset : TileSet.t) (pre post : list Tile.t) (bad : Tile.t) :
  TileSet.tiles tileset = pre ++ bad :: post ->
  Forall (fun tile => is_Some (Tile.indices tile !! Indices.ROUND)
                      /\ is_Some (Tile.indices tile !! Indices.CH)) pre ->
  Tile.indices bad !! Indices.ROUND = None
  \/ Tile.indices bad !! Indices.CH = None ->
  TileSetMetadata.__init__ tileset
  = Raise (KeyError (PyIndices
             match Tile.indices bad !! Indices.ROUND with
             | Some _ => Indices.CH
             | None => Indices.ROUND
             end)).
Proof.
  intros Htiles Hpre Hbad. unfold TileSetMetadata.__init__.
  rewrite Htiles, for_tiles_app.
  destruct (for_tiles_total pre []) as [d ->].
  { eapply Forall_impl; [exact Hpre|].
    intros tile [[r Hr] [c Hc]]. cbn.
    rewrite (tile_key_fields tile r c Hr Hc). by eauto. }
  cbn. rewrite loop_body_key. unfold tile_key, indices_getitem.
  destruct (Tile.indices bad !! Indices.ROUND) as [r|]; [|done].
  destruct Hbad as [Hr|Hc]; [done|]. by rewrite Hc.
Qed.

(** X7. The keys of a registry are pairwise distinct, the registry has one
    entry per key, and it never has more entries than the tile set has
    tiles. *)
Theorem keys_distinct_and_bounded (tileset : TileSet.t) (reg : TileSetMetadata.t) :
  TileSetMetadata.__init__ tileset = Ok reg ->
  NoDup (TileSetMetadata.keys reg)
  /\ dict_len (TileSetMetadata.tile_extras reg) = length (TileSetMetadata.keys reg)
  /\ (length (TileSetMetadata.keys reg) <= length (TileSet.tiles tileset))%nat.
Proof.
  intros Hreg. destruct (init_inv tileset reg Hreg) as (ks & Hks & _ & Hkeys & _).
  split; [|split].
  - rewrite Hkeys. apply add_keys_NoDup, NoDup_nil_2.
  - unfold TileSetMetadata.keys, dict_keys, dict_len. by rewrite length_map.
  - rewrite Hkeys, (Forall2_length _ _ _ Hks). apply (add_keys_length [] ks).
Qed.

(** X8. A key is among the keys of a registry exactly when some tile of the
    tile set yields it. *)
Theorem keys_are_the_tile_keys
    (tileset : TileSet.t) (reg : TileSetMetadata.t) (k : TileMetadataKey.t) :
  TileSetMetadata.__init__ tileset = Ok reg ->
  k ∈ TileSetMetadata.keys reg
  <-> exists tile, tile ∈ TileSet.tiles tileset /\ tile_key tile = Ok k.
Proof.
  intros Hreg. destruct (init_inv tileset reg Hreg) as (ks & Hks & _ & Hkeys & _).
  rewrite Hkeys, add_keys_elem, elem_of_nil, <- (keys_list_elem _ ks k Hks).
  tauto.
Qed.

(** X9. [keys()] and [__getitem__] agree: the lookup of a key returns a
    value exactly when the key is among [keys()], and raises [KeyError]
    with that key otherwise. *)
Theorem getitem_succeeds_on_keys
    (tileset : TileSet.t) (reg : TileSetMetadata.t) (k : TileMetadataKey.t) :
  TileSetMetadata.__init__ tileset = Ok reg ->
  ((exists v, TileSetMetadata.__getitem__ reg (PyKey k) = Ok v)
   <-> k ∈ TileSetMetadata.keys reg)
  /\ (k ∉ TileSetMetadata.keys reg ->
      TileSetMetadata.__getitem__ reg (PyKey k) = Raise (KeyError (PyKey k))).
Proof.
  intros Hreg. destruct (init_inv tileset reg Hreg) as (_ & _ & Hwf & _).
  unfold TileSetMetadata.__getitem__, TileSetMetadata.keys.
  rewrite (getitem_key _ k Hwf), keys_lookup.
  destruct (dict_lookup _ k) as [v|]; split.
  - split; by eauto.
  - intros []. by eauto.
  - split; [by intros [? ?]|by intros [? ?]].
  - done.
Qed.

(** X10. When the tiles yield pairwise distinct keys, the lookup of the key
    of any tile returns the extras of that very tile. *)
Theorem distinct_tiles_are_retrievable
    (tileset : TileSet.t) (reg : TileSetMetadata.t)
    (ks : list TileMetadataKey.t) (tile : Tile.t) (k : TileMetadataKey.t) :
  TileSetMetadata.__init__ tileset = Ok reg ->
  Forall2 (fun tile k => tile_key tile = Ok k) (TileSet.tiles tileset) ks ->
  NoDup ks ->
  tile ∈ TileSet.tiles tileset ->
  tile_key tile = Ok k ->
  TileSetMetadata.__getitem__ reg (PyKey k) = Ok (Tile.extras tile).
Proof.
  intros Hreg Hks Hnd Hin Hk.
  destruct (init_inv tileset reg Hreg) as (_ & _ & _ & _ & _ & Hget).
  by rewrite Hget, (last_extras_distinct _ ks tile k Hks Hnd Hin Hk).
Qed.

(** X12. A registry has as many keys as the tile set has tiles exactly when
    the tiles yield pairwise distinct keys: every repeated key costs an
    entry. *)
Theorem full_size_iff_distinct
    (tileset : TileSet.t) (reg : TileSetMetadata.t) (ks : list TileMetadataKey.t) :
  TileSetMetadata.__init__ tileset = Ok reg ->
  Forall2 (fun tile k => tile_key tile = Ok k) (TileSet.tiles tileset) ks ->
  length (TileSetMetadata.keys reg) = length (TileSet.tiles tileset) <-> NoDup ks.
Proof.
  intros Hreg Hks.
  destruct (init_inv tileset reg Hreg) as (ks' & Hks' & _ & Hkeys & _).
  rewrite (keys_list_unique _ _ _ Hks' Hks) in Hkeys.
  rewrite Hkeys, (Forall2_length _ _ _ Hks).
  apply (add_keys_full_length [] ks), NoDup_nil_2.
Qed.

End RegistryExtras.

Lemma for_tiles_same_outcome (I1 I2 : Interpreter) (tiles : list Tile.t) (d1 d2 : PyDict) :
  match @TileSetMetadata.for_tiles I1 tiles d1, @TileSetMetadata.for_tiles I2 tiles d2 with
  | Ok _, Ok _ => True
  | Raise e1, Raise e2 => e1 = e2
  | _, _ => False
  end.
Proof.
  revert d1 d2. induction tiles as [|tile tiles IH]; intros d1 d2; cbn; [done|].
  rewrite !loop_body_key. destruct (tile_key tile) as [k|e]; cbn; [apply IH|done].
Qed.

(** X11. What a registry answers does not depend on the hash values the
    interpreter works with: under any two of them the constructor raises
    the same exception or returns registries with the same keys in the same
    order and the same answer to every key lookup.  Colliding hashes never
    make a lookup return the entry of another key. *)
Theorem answers_independent_of_hashes (I1 I2 : Interpreter) (tileset : TileSet.t) :
  (forall e, @TileSetMetadata.__init__ I1 tileset = Raise e
             <-> @TileSetMetadata.__init__ I2 tileset = Raise e)
  /\ (forall reg1 reg2,
        @TileSetMetadata.__init__ I1 tileset = Ok reg1 ->
        @TileSetMetadata.__init__ I2 tileset = Ok reg2 ->
        TileSetMetadata.keys reg1 = TileSetMetadata.keys reg2
        /\ forall k, @TileSetMetadata.__getitem__ I1 reg1 (PyKey k)
                     = @TileSetMetadata.__getitem__ I2 reg2 (PyKey k)).
Proof.
  split.
  - intros e. unfold TileSetMetadata.__init__.
    pose proof (for_tiles_same_outcome I1 I2 (TileSet.tiles tileset) [] []) as Hsame.
    destruct (@TileSetMetadata.for_tiles I1 _ []) as [d1|e1],
             (@TileSetMetadata.for_tiles I2 _ []) as [d2|e2]; cbn; try done.
    by rewrite Hsame.
  - intros reg1 reg2 Hreg1 Hreg2.
    destruct (@init_inv I1 tileset reg1 Hreg1) as (ks1 & Hks1 & _ & Hkeys1 & _ & Hget1).
    destruct (@init_inv I2 tileset reg2 Hreg2) as (ks2 & Hks2 & _ & Hkeys2 & _ & Hget2).
    rewrite Hkeys1, Hkeys2, (keys_list_unique _ _ _ Hks1 Hks2).
    split; [done|]. intros k. by rewrite Hget1, Hget2.
Qed.

Section RegistryComposition.
Context `{!Interpreter}.

(** X13. A tile that omits z and a tile with z = 0 at the same round and
    channel share one registry entry, under the key (round, ch, 0): the
    registry then has fewer keys than the tile set has tiles, and the entry
    holds the extras of one tile only. *)
Theorem omitted_z_shares_entry_with_zero
    (tileset : TileSet.t) (reg : TileSetMetadata.t)
    (i j : nat) (t1 t2 : Tile.t) (r c : Z) :
  TileSetMetadata.__init__ tileset = Ok reg ->
  TileSet.tiles tileset !! i = Some t1 ->
  TileSet.tiles tileset !! j = Some t2 ->
  i ≠ j ->
  Tile.indices t1 !! Indices.ROUND = Some r ->
  Tile.indices t1 !! Indices.CH = Some c ->
  Tile.indices t1 !! Indices.Z = None ->
  Tile.indices t2 !! Indices.ROUND = Some r ->
  Tile.indices t2 !! Indices.CH = Some c ->
  Tile.indices t2 !! Indices.Z = Some 0 ->
  (length (TileSetMetadata.keys reg) < length (TileSet.tiles tileset))%nat
  /\ exists tile,
       tile ∈ TileSet.tiles tileset
       /\ tile_key tile = Ok (TileMetadataKey.__init__ r c 0)
       /\ TileSetMetadata.__getitem__ reg (PyKey (TileMetadataKey.__init__ r c 0))
          = Ok (Tile.extras tile).
Proof.
  intros Hreg Hi Hj Hij Hr1 Hc1 Hz1 Hr2 Hc2 Hz2.
  destruct (init_inv tileset reg Hreg) as (ks & Hks & _ & Hkeys & _ & Hget).
  set (key := TileMetadataKey.__init__ r c 0).
  assert (Hk1 : tile_key t1 = Ok key).
  { by rewrite (tile_key_fields t1 r c Hr1 Hc1), Hz1. }
  assert (Hk2 : tile_key t2 = Ok key).
  { by rewrite (tile_key_fields t2 r c Hr2 Hc2), Hz2. }
  split.
  - destruct (Forall2_lookup_l _ _ _ i t1 Hks Hi) as (k1 & Hki & Hk1').
    destruct (Forall2_lookup_l _ _ _ j t2 Hks Hj) as (k2 & Hkj & Hk2').
    assert (k1 = key) as -> by congruence.
    assert (k2 = key) as -> by congruence.
    assert (Hdup : ~ NoDup ks).
    { intros Hnd. by apply Hij, (NoDup_lookup ks i j key). }
    pose proof (add_keys_length [] ks) as Hle.
    pose proof (add_keys_full_length [] ks (NoDup_nil_2)) as Hfull.
    rewrite Hkeys, (Forall2_length _ _ _ Hks). cbn in Hle, Hfull.
    destruct (decide (length (add_keys [] ks) = length ks)) as [Heq|Hne]; [|lia].
    destruct Hdup. by apply Hfull.
  - rewrite Hget.
    destruct (last_extras_elem key _ t1 (list_elem_of_lookup_2 _ _ _ Hi) Hk1)
      as [v Hlast].
    rewrite Hlast.
    destruct (last_extras_some key _ v Hlast) as (tile & Hin & Hk & <-).
    by exists tile.
Qed.

(** X14. Tiles appended to a tile set extend its registry: the keys of the
    longer registry start with the keys of the shorter one, in the same
    order, and every key that no appended tile yields gets the same answer
    from both. *)
Theorem appended_tiles_extend_registry
    (tileset tileset' : TileSet.t) (more : list Tile.t)
    (reg reg' : TileSetMetadata.t) :
  TileSet.tiles tileset' = TileSet.tiles tileset ++ more ->
  TileSetMetadata.__init__ tileset = Ok reg ->
  TileSetMetadata.__init__ tileset' = Ok reg' ->
  (exists new, TileSetMetadata.keys reg' = TileSetMetadata.keys reg ++ new)
  /\ forall k,
       Forall (fun tile => tile_key tile ≠ Ok k) more ->
       TileSetMetadata.__getitem__ reg' (PyKey k)
       = TileSetMetadata.__getitem__ reg (PyKey k).
Proof.
  intros Htiles Hreg Hreg'.
  destruct (init_inv tileset reg Hreg) as (ks & Hks & _ & Hkeys & _ & Hget).
  destruct (init_inv tileset' reg' Hreg') as (ks' & Hks' & _ & Hkeys' & _ & Hget').
  rewrite Htiles in Hks', Hget'. split.
  - apply Forall2_app_inv_l in Hks' as (ks1 & ks2 & Hks1 & _ & ->).
    rewrite (keys_list_unique _ _ _ Hks1 Hks) in Hkeys'.
    rewrite Hkeys', Hkeys. unfold add_keys at 1. rewrite foldl_app.
    apply (add_keys_extends (add_keys [] ks) ks2).
  - intros k Hmore.
    by rewrite Hget', Hget, last_extras_app, (last_extras_none k more Hmore).
Qed.

(** X15. When the tiles yield pairwise distinct keys their order does not
    matter: a tile set with the same tiles in another order gives a
    registry with the same keys, up to order, and the same answer to every
    key lookup. *)
Theorem distinct_keys_order_irrelevant
    (tileset tileset' : TileSet.t) (reg : TileSetMetadata.t)
    (ks : list TileMetadataKey.t) :
  TileSet.tiles tileset' ≡ₚ TileSet.tiles tileset ->
  TileSetMetadata.__init__ tileset = Ok reg ->
  Forall2 (fun tile k => tile_key tile = Ok k) (TileSet.tiles tileset) ks ->
  NoDup ks ->
  exists reg',
    TileSetMetadata.__init__ tileset' = Ok reg'
    /\ TileSetMetadata.keys reg' ≡ₚ TileSetMetadata.keys reg
    /\ forall k, TileSetMetadata.__getitem__ reg' (PyKey k)
                 = TileSetMetadata.__getitem__ reg (PyKey k).
Proof.
  intros Hperm Hreg Hks Hnd.
  assert (Hin : forall tile, tile ∈ TileSet.tiles tileset' <-> tile ∈ TileSet.tiles tileset).
  { intros tile. by rewrite Hperm. }
  assert (Hall : Forall (fun tile => exists k, tile_key tile = Ok k)
                        (TileSet.tiles tileset')).
  { apply Forall_forall. intros tile Htile%Hin.
    destruct (list_elem_of_lookup_1 _ _ Htile) as [i Hi].
    destruct (Forall2_lookup_l _ _ _ i tile Hks Hi) as (k & _ & Hk). by exists k. }
  destruct (for_tiles_total _ [] Hall) as [d Hloop].
  assert (Hreg' : TileSetMetadata.__init__ tileset'
                  = Ok {| TileSetMetadata.tile_extras := d;
                          TileSetMetadata._extras := TileSet.extras tileset' |}).
  { unfold TileSetMetadata.__init__. by rewrite Hloop. }
  eexists. split; [exact Hreg'|].
  destruct (init_inv tileset reg Hreg) as (ks0 & Hks0 & _ & Hkeys & _ & Hget).
  destruct (init_inv tileset' _ Hreg') as (ks' & Hks' & _ & Hkeys' & _ & Hget').
  split.
  - apply NoDup_Permutation.
    + rewrite Hkeys'. apply add_keys_NoDup, NoDup_nil_2.
    + rewrite Hkeys. apply add_keys_NoDup, NoDup_nil_2.
    + intros k. rewrite Hkeys', Hkeys, !add_keys_elem, !elem_of_nil.
      rewrite (keys_list_elem _ ks' k Hks'), (keys_list_elem _ ks0 k Hks0).
      split; intros [?|(tile & Htile & Hk)]; try done; right; exists tile;
        (split; [by apply Hin|done]).
  - intros k. rewrite Hget', Hget.
    destruct (last_extras k (TileSet.tiles tileset')) as [v|] eqn:Hlast'.
    + destruct (last_extras_some k _ v Hlast') as (tile & Htile%Hin & Hk & <-).
      by rewrite (last_extras_distinct _ ks tile k Hks Hnd Htile Hk).
    + destruct (last_extras k (TileSet.tiles tileset)) as [w|] eqn:Hlast; [|done].
      destruct (last_extras_some k _ w Hlast) as (tile & Htile%Hin & Hk & _).
      destruct (last_extras_elem k _ tile Htile Hk) as [v Hv]. congruence.
Qed.

End RegistryComposition.

(** ** Worked instances of the further properties *)

Example sample_registry_distinct_built :
  @TileSetMetadata.__init__ sample_interpreter sample_tileset_distinct
  = Ok sample_registry_distinct.
Proof. vm_compute. reflexivity. Qed.

Example sample_distinct_keys :
  Forall2 (fun tile k => tile_key tile = Ok k)
          (TileSet.tiles sample_tileset_distinct)
          [TileMetadataKey.mk 1 0 0; TileMetadataKey.mk 0 1 0]
  /\ NoDup [TileMetadataKey.mk 1 0 0; TileMetadataKey.mk 0 1 0].
Proof.
  split; [repeat constructor|].
  refine (bool_decide_unpack _ _). vm_compute. exact I.
Qed.

Lemma error_names_first_missing_index_witness :
  @TileSetMetadata.__init__ sample_interpreter sample_tileset_bare
  = Raise (KeyError (PyIndices Indices.ROUND)).
Proof.
  etrans.
  - apply (@error_names_first_missing_index sample_interpreter sample_tileset_bare
             [sample_tile 1 0 (Some 0) 11%positive]
             [sample_tile 0 1 None 13%positive]
             {| Tile.indices := ∅; Tile.extras := 12%positive |}).
    + reflexivity.
    + constructor; [|constructor]. split; [exists 1|exists 0]; reflexivity.
    + left. reflexivity.
  - vm_compute. reflexivity.
Defined.

Lemma keys_distinct_and_bounded_witness :
  NoDup (TileSetMetadata.keys sample_registry)
  /\ dict_len (TileSetMetadata.tile_extras sample_registry)
     = length (TileSetMetadata.keys sample_registry)
  /\ (length (TileSetMetadata.keys sample_registry)
      <= length (TileSet.tiles sample_tileset))%nat.
Proof.
  exact (@keys_distinct_and_bounded sample_interpreter sample_tileset
           sample_registry sample_registry_built).
Defined.

Lemma keys_are_the_tile_keys_witness :
  TileMetadataKey.mk 0 1 0 ∈ TileSetMetadata.keys sample_registry
  <-> exists tile, tile ∈ TileSet.tiles sample_tileset
                   /\ tile_key tile = Ok (TileMetadataKey.mk 0 1 0).
Proof.
  exact (@keys_are_the_tile_keys sample_interpreter sample_tileset
           sample_registry (TileMetadataKey.mk 0 1 0) sample_registry_built).
Defined.

Lemma getitem_succeeds_on_keys_witness :
  ((exists v, @TileSetMetadata.__getitem__ sample_interpreter sample_registry
                (PyKey (TileMetadataKey.mk 1 1 0)) = Ok v)
   <-> TileMetadataKey.mk 1 1 0 ∈ TileSetMetadata.keys sample_registry)
  /\ (TileMetadataKey.mk 1 1 0 ∉ TileSetMetadata.keys sample_registry ->
      @TileSetMetadata.__getitem__ sample_interpreter sample_registry
        (PyKey (TileMetadataKey.mk 1 1 0))
      = Raise (KeyError (PyKey (TileMetadataKey.mk 1 1 0)))).
Proof.
  exact (@getitem_succeeds_on_keys sample_interpreter sample_tileset
           sample_registry (TileMetadataKey.mk 1 1 0) sample_registry_built).
Defined.

Lemma distinct_tiles_are_retrievable_witness :
  @TileSetMetadata.__getitem__ sample_interpreter sample_registry_distinct
    (PyKey (TileMetadataKey.mk 0 1 0))
  = Ok 12%positive.
Proof.
  apply (@distinct_tiles_are_retrievable sample_interpreter
           sample_tileset_distinct sample_registry_distinct
           [TileMetadataKey.mk 1 0 0; TileMetadataKey.mk 0 1 0]
           (sample_tile 0 1 None 12%positive) (TileMetadataKey.mk 0 1 0)
           sample_registry_distinct_built
           (proj1 sample_distinct_keys) (proj2 sample_distinct_keys)).
  - right. left.
  - reflexivity.
Defined.

Lemma full_size_iff_distinct_witness :
  length (TileSetMetadata.keys sample_registry_distinct)
  = length (TileSet.tiles sample_tileset_distinct)
  <-> NoDup [TileMetadataKey.mk 1 0 0; TileMetadataKey.mk 0 1 0].
Proof.
  exact (@full_size_iff_distinct sample_interpreter sample_tileset_distinct
           sample_registry_distinct _
           sample_registry_distinct_built (proj1 sample_distinct_keys)).
Defined.

Lemma omitted_z_shares_entry_with_zero_witness :
  let reg := {| TileSetMetadata.tile_extras :=
                  [entry 1 (TileMetadataKey.mk 0 1 0) 15%positive];
                TileSetMetadata._extras := 10%positive |} in
  (length (TileSetMetadata.keys reg) < length (TileSet.tiles sample_tileset_z))%nat
  /\ exists tile,
       tile ∈ TileSet.tiles sample_tileset_z
       /\ tile_key tile = Ok (TileMetadataKey.__init__ 0 1 0)
       /\ @TileSetMetadata.__getitem__ sample_interpreter reg
            (PyKey (TileMetadataKey.__init__ 0 1 0))
          = Ok (Tile.extras tile).
Proof.
  apply (@omitted_z_shares_entry_with_zero sample_interpreter sample_tileset_z _
           0%nat 1%nat (sample_tile 0 1 None 12%positive)
           (sample_tile 0 1 (Some 0) 15%positive) 0 1);
    try (vm_compute; reflexivity).
  lia.
Defined.

Lemma appended_tiles_extend_registry_witness :
  let reg' := {| TileSetMetadata.tile_extras :=
                   [entry 1 (TileMetadataKey.mk 1 0 0) 11%positive;
                    entry 1 (TileMetadataKey.mk 0 1 0) 12%positive;
                    entry 1 (TileMetadataKey.mk 2 2 1) 14%positive];
                 TileSetMetadata._extras := 10%positive |} in
  (exists new, TileSetMetadata.keys reg'
               = TileSetMetadata.keys sample_registry_distinct ++ new)
  /\ forall k,
       Forall (fun tile => tile_key tile ≠ Ok k) [sample_tile 2 2 (Some 1) 14%positive] ->
       @TileSetMetadata.__getitem__ sample_interpreter reg' (PyKey k)
       = @TileSetMetadata.__getitem__ sample_interpreter sample_registry_distinct (PyKey k).
Proof.
  apply (@appended_tiles_extend_registry sample_interpreter
           sample_tileset_distinct sample_tileset_extended
           [sample_tile 2 2 (Some 1) 14%positive]);
    vm_compute; reflexivity.
Defined.

Lemma distinct_keys_order_irrelevant_witness :
  exists reg',
    @TileSetMetadata.__init__ sample_interpreter sample_tileset_swapped = Ok reg'
    /\ TileSetMetadata.keys reg' ≡ₚ TileSetMetadata.keys sample_registry_distinct
    /\ forall k, @TileSetMetadata.__getitem__ sample_interpreter reg' (PyKey k)
                 = @TileSetMetadata.__getitem__ sample_interpreter
                     sample_registry_distinct (PyKey k).
Proof.
  apply (@distinct_keys_order_irrelevant sample_interpreter
           sample_tileset_distinct sample_tileset_swapped sample_registry_distinct
           [TileMetadataKey.mk 1 0 0; TileMetadataKey.mk 0 1 0]).
  - apply perm_swap.
  - exact sample_registry_distinct_built.
  - exact (proj1 sample_distinct_keys).
  - exact (proj2 sample_distinct_keys).
Defined.
